(** * The SEIR simulation engine of [model.py]

    A shallow embedding of [model], [solve] and [run_SEIR], and the
    properties of the design document that can be settled on it.

    Modelling conventions.
    - A Python/numpy [float] is a finite, exact rational ([Q]): no rounding
      of the binary format, no [inf], no [nan].  Equality of floats is
      [Qeq] ([==]).  Where a product of floats rounds onto an integer that
      the exact product is just below, the integer the code stores is one
      above the one of the model; what is stated of stored values is stated
      for exact arithmetic.
    - A Python [int] is an unbounded integer ([Z]).  An [int64] is a [Z]
      kept within the range of 64 bits: the store of a float into the
      [int64] array raises [OverflowError] outside it.
    - Division by zero: numpy yields [inf]/[nan] where [Q] yields [0].  In
      [run_SEIR] the only divisor that can be zero is the population; the
      [nan] it makes reaches the store of line 125, which raises
      [ValueError], and the model raises there by a test on the population.
    - A calendar date is its proleptic Gregorian ordinal ([date.toordinal]),
      from 1 (0001-01-01) to 3652059 (9999-12-31): [(d2 - d1).days] is a
      subtraction, and [d + timedelta(days=x)] an addition that raises
      [OverflowError] when it leaves that range.
    - [scipy.integrate.odeint] is an external library: it is a parameter of
      the model, constrained only by the shape of the array it returns.
    - [shared.delay] belongs to the repository but not to [model.py]; it is
      modelled from the design document. *)

From Stdlib Require Import ZArith QArith Qround Qreals Lia Lqa Reals Lra List.
From stdpp Require Import base list.
Import ListNotations.

Local Open Scope Z_scope.
Local Open Scope Q_scope.

(** ** Python and numpy primitives *)

Module Py.

Inductive exception : Type :=
| IndexError
| ValueError
| OverflowError.

(** The result of running a piece of Python: a value, or a raised
    exception that unwinds to the caller. *)
Inductive outcome (A : Type) : Type :=
| Returned (a : A)
| Raised (e : exception).

Arguments Returned {A} a.
Arguments Raised {A} e.

Definition bind {A B : Type} (m : outcome A) (k : A -> outcome B) : outcome B :=
  match m with
  | Returned a => k a
  | Raised e => Raised e
  end.

Definition returns {A : Type} (m : outcome A) : Prop :=
  exists a, m = Returned a.

(** [a[i]] for [0 <= i]: out of range raises. *)
Definition getitem {A : Type} (a : list A) (i : nat) : outcome A :=
  match a !! i with
  | Some v => Returned v
  | None => Raised IndexError
  end.

(** [a[i] = v] for [0 <= i]: out of range raises, the length never grows. *)
Definition setitem {A : Type} (a : list A) (i : nat) (v : A) : outcome (list A) :=
  if decide (i < length a)%nat then Returned (<[i:=v]> a) else Raised IndexError.

(** [np.arange(n)]: the integers [0 .. n-1], of integer dtype. *)
Definition arange (n : Z) : list Z :=
  map Z.of_nat (seq 0 (Z.to_nat n)).

(** Storing a float into an [int64] array converts it as C does: the
    fractional part is dropped, towards zero. *)
Definition trunc (x : Q) : Z :=
  Z.quot (Qnum x) (Z.pos (Qden x)).

(** The range of an [int64]. *)
Definition int64_min : Z := (- 2 ^ 63)%Z.
Definition int64_max : Z := (2 ^ 63 - 1)%Z.

(** [a[i] = x] for a float [x] and an [int64] array: the value stored is
    [x] without its fraction; outside the range of an [int64] the store
    raises. *)
Definition to_int64 (x : Q) : outcome Z :=
  let n := trunc x in
  if ((int64_min <=? n) && (n <=? int64_max))%Z
  then Returned n
  else Raised OverflowError.

(** The ordinals of [date.min] and [date.max]. *)
Definition date_min : Z := 1.
Definition date_max : Z := 3652059.

(** [d + timedelta(days=x)] on a [date]. *)
Definition date_add (d x : Z) : outcome Z :=
  let d' := (d + x)%Z in
  if ((date_min <=? d') && (d' <=? date_max))%Z
  then Returned d'
  else Raised OverflowError.

(** [series.apply(f)]: [f] on every entry in turn; the first exception
    ends it. *)
Fixpoint Series_apply {A B : Type} (f : A -> outcome B) (l : list A)
  : outcome (list B) :=
  match l with
  | [] => Returned []
  | x :: l' =>
      bind (f x) (fun y => bind (Series_apply f l') (fun ys => Returned (y :: ys)))
  end.

(** [round(x)] on a float: to the nearest integer, ties to the even one. *)
Definition round (x : Q) : Z :=
  let f := Qfloor x in
  match Qcompare (x - inject_Z f) (1 # 2) with
  | Lt => f
  | Gt => (f + 1)%Z
  | Eq => if Z.even f then f else (f + 1)%Z
  end.

(** [for i, x in enumerate(xs): s = body(s, i, x)], counting from [i]. *)
Fixpoint for_enumerate {A St : Type} (body : St -> nat -> A -> outcome St)
         (i : nat) (xs : list A) (s : St) : outcome St :=
  match xs with
  | [] => Returned s
  | x :: xs' => bind (body s i x) (for_enumerate body (S i) xs')
  end.

End Py.

Import Py.

Notation "'let*' x := m 'in' k" := (Py.bind m (fun x => k))
  (at level 10, x name, m at level 100, k at level 200).

(** ** [shared.delay] *)

Module Shared.

(** The source sample at integer position [k]; nothing is stored before
    the first index, and nothing is read past the last one. *)
Definition sample (series : list Q) (k : Z) : Q :=
  if (k <? 0)%Z then 0 else default 0 (series !! Z.to_nat k).

(** Modelled from the spec: [shared.delay], which [model.py] imports and
    which is not among the sources.  Design document, section 4.4:
    [series'[t] = series[t - shiftDays]] when [t - shiftDays >= 0], else
    [0]; a fractional shift interpolates linearly between the two samples
    that bracket [t - shiftDays]; the output has the length of the input.
    The document does not say what a negative shift reads past the last
    index; [sample] gives [0] there, and nothing below depends on it. *)
Definition delay (series : list Q) (shiftDays : Q) : list Q :=
  imap (fun (t : nat) (_ : Q) =>
          let pos := inject_Z (Z.of_nat t) - shiftDays in
          if Qlt_le_dec pos 0 then 0
          else
            let k := Qfloor pos in
            let frac := pos - inject_Z k in
            if Qeq_bool frac 0 then sample series k
            else sample series k
                 + frac * (sample series (k + 1) - sample series k))
       series.

End Shared.

(** ** [model.py] *)

Module Model.

(** [Y]: the compartments [(S, E, I, R)]. *)
Definition state : Type := (Q * Q * Q * Q)%type.

Definition state_eq (a b : state) : Prop :=
  let '(a1, a2, a3, a4) := a in
  let '(b1, b2, b3, b4) := b in
  a1 == b1 /\ a2 == b2 /\ a3 == b3 /\ a4 == b4.

(** [model(Y, x, N, beta0, days0, beta1, gamma, sigma)], lines 15-30.
    The compartments [S, E, I, R] are written [s, e, i, r]: [S] and [I]
    are constructors of [nat] and [True]. *)
Definition model (Y : state) (x : Q) (N : Z) (beta0 : Q) (days0 : Z)
           (beta1 gamma sigma : Q) : state :=
  let '(s, e, i, r) := Y in
  let beta := if Qlt_le_dec x (inject_Z days0) then beta0 else beta1 in
  let dS := - beta * s * i / inject_Z N in
  let dE := beta * s * i / inject_Z N - sigma * e in
  let dI := sigma * e - gamma * i in
  let dR := gamma * i in
  (dS, dE, dI, dR).

(** The derivative as the design document writes it (section 4.2). *)
Definition spec_beta (t : Q) (beta0 : Q) (daysToSwitch : Z) (beta1 : Q) : Q :=
  if Qlt_le_dec t (inject_Z daysToSwitch) then beta0 else beta1.

Definition spec_derivative (Y : state) (t : Q) (N : Z) (beta0 : Q)
           (daysToSwitch : Z) (beta1 gamma sigma : Q) : state :=
  let '(s, e, i, r) := Y in
  let beta := spec_beta t beta0 daysToSwitch beta1 in
  (- (beta * s * i / inject_Z N),
   beta * s * i / inject_Z N - sigma * e,
   sigma * e - gamma * i,
   gamma * i).

Definition total (Y : state) : Q :=
  let '(s, e, i, r) := Y in s + e + i + r.

(** *** [solve], lines 33-40 *)

(** [scipy.integrate.odeint(func, y0, t)]: one row per entry of [t]. *)
Definition integrator : Type :=
  (state -> Q -> state) -> state -> list Q -> list state.

Definition column_S (y : list state) : list Q := map (fun '(s, _, _, _) => s) y.
Definition column_E (y : list state) : list Q := map (fun '(_, e, _, _) => e) y.
Definition column_I (y : list state) : list Q := map (fun '(_, _, i, _) => i) y.
Definition column_R (y : list state) : list Q := map (fun '(_, _, _, r) => r) y.

Definition solve (odeint : integrator)
           (model : state -> Q -> Z -> Q -> Z -> Q -> Q -> Q -> state)
           (population E0 : Z) (beta0 : Q) (days0 : Z) (beta1 gamma sigma : Q)
           (daysTotal : Z)
  : list Z * list Q * list Q * list Q * list Q :=
  let X := arange daysTotal in
  let N0 := (inject_Z (population - E0), inject_Z E0, 0, 0) in
  let y_data_var :=
    odeint (fun Y x => model Y x population beta0 days0 beta1 gamma sigma)
           N0 (map inject_Z X) in
  (X, column_S y_data_var, column_E y_data_var,
   column_I y_data_var, column_R y_data_var).

(** *** The constants of [run_SEIR], lines 51-99 *)

Definition daysTotal : Z := 365.
Definition E0 : Z := 1.
Definition r0 : Q := 3.0.
Definition r1 : Q := 1.1.

Definition days_before_lockdown (date_of_first_infection date_of_lockdown : Z) : Z :=
  (date_of_lockdown - date_of_first_infection)%Z.

Definition days_presymptomatic : Q := 2.5.
Definition days_to_incubation : Q := 5.2.
Definition sigma : Q := 1.0 / (days_to_incubation - days_presymptomatic).
Definition generation_time : Q := 4.6.
Definition gamma : Q := 1.0 / (2.0 * (generation_time - 1.0 / sigma)).

Definition percent_asymptomatic : Q := 0.35.
Definition percent_cases_detected : Q := (1.0 - percent_asymptomatic) / 20.0.

Definition timeInHospital : Q := 12.
Definition timeInfected : Q := 1.0 / gamma.

Definition presymptomaticLag : Z := round days_presymptomatic.
Definition communicationLag : Q := 2.
Definition testLag : Q := 3.
Definition symptomToHospitalLag : Q := 5.
Definition hospitalToIcuLag : Q := 5.

Definition infectionFatalityRateA : Q := 0.01.
Definition infectionFatalityRateB : Q := infectionFatalityRateA * 3.0.
Definition icuRate : Q := infectionFatalityRateA * 2.

Definition beta0 : Q := r0 * gamma.
Definition beta1 : Q := r1 * gamma.

(** [s1], lines 98-99, as a function of the reproduction number; the
    square root takes it to the reals.  [math.sqrt] raises on a negative
    argument, which the reals' [sqrt] sends to [0]. *)
Definition s1_at (r : R) : R :=
  (0.5 * (- (Q2R sigma + Q2R gamma)
          + sqrt ((Q2R sigma + Q2R gamma) ^ 2
                  + 4 * Q2R sigma * Q2R gamma * (r - 1))))%R.

Definition s1 : R := s1_at (Q2R r0).

(** *** Derived arrays, lines 105-114 *)

(** [F], lines 105 and 110-111. *)
Definition found (I : list Q) : list Q :=
  let F := map (fun v => v * percent_cases_detected) I in
  Shared.delay F (days_presymptomatic + symptomToHospitalLag + testLag
                  + communicationLag).

(** [U], lines 106 and 112-114. *)
Definition icu_demand (I : list Q) : list Q :=
  let U := map (fun v => v * icuRate * timeInHospital / timeInfected) I in
  let U := Shared.delay U (days_presymptomatic + symptomToHospitalLag
                           + hospitalToIcuLag) in
  Shared.delay U (inject_Z (round ((timeInHospital / timeInfected - 1)
                                   * timeInfected))).

(** [P], line 107. *)
Definition probability (I : list Q) (population : Z) : list Q :=
  map (fun v => v / inject_Z population * 1000000) I.

(** *** The death estimate, lines 120-127 *)

Record deaths_state : Type := {
  D : list Z;
  RPrev : Q;
  DPrev : Z
}.

(** One turn of the loop.  [D] is the array made by [np.arange], of
    dtype [int64]: the store at line 125 drops the fraction and raises
    outside the range, and line 127 reads the stored integer back. *)
Definition deaths_body (rateA rateB : Q) (intensive_units : Z)
           (U R : list Q) (st : deaths_state) (i : nat) (x : Z)
  : outcome deaths_state :=
  let* u := getitem U i in
  let IFR := if Qle_bool u (inject_Z intensive_units) then rateA else rateB in
  let* r := getitem R i in
  let* v := to_int64 (inject_Z (DPrev st) + IFR * (r - RPrev st)) in
  let* D' := setitem (D st) i v in
  let* RPrev' := getitem R i in
  let* DPrev' := getitem D' i in
  Returned {| D := D'; RPrev := RPrev'; DPrev := DPrev' |}.

Definition estimate_deaths (rateA rateB : Q) (intensive_units : Z)
           (daysTotal : Z) (X : list Z) (U R : list Q) : outcome (list Z) :=
  let* st := for_enumerate (deaths_body rateA rateB intensive_units U R)
               0%nat X {| D := arange daysTotal; RPrev := 0; DPrev := 0%Z |} in
  Returned (D st).

(** The recurrence as the design document writes it (section 4.5): the
    same steps on unconverted values. *)
Fixpoint spec_deaths (fatalityRateLow fatalityRateHigh : Q) (icuCapacity : Z)
         (ICUdemand R : list Q) (RPrev DPrev : Q) : list Q :=
  match ICUdemand, R with
  | u :: ICUdemand', r :: R' =>
      let IFR := if Qle_bool u (inject_Z icuCapacity)
                 then fatalityRateLow else fatalityRateHigh in
      let d := DPrev + IFR * (r - RPrev) in
      d :: spec_deaths fatalityRateLow fatalityRateHigh icuCapacity
             ICUdemand' R' r d
  | _, _ => []
  end.

(** The loop of lines 120-127 without the array: what each turn stores
    when no store leaves the range. *)
Fixpoint stored_deaths (rateA rateB : Q) (intensive_units : Z)
         (U R : list Q) (RPrev : Q) (DPrev : Z) : list Z :=
  match U, R with
  | u :: U', r :: R' =>
      let IFR := if Qle_bool u (inject_Z intensive_units) then rateA else rateB in
      let d := trunc (inject_Z DPrev + IFR * (r - RPrev)) in
      d :: stored_deaths rateA rateB intensive_units U' R' r d
  | _, _ => []
  end.

(** *** The returned table, lines 132-149 *)

Inductive observable : Type :=
| susceptible
| exposed
| infectious
| recovered
| deaths.

(** One row of [line_plot_data]: the columns [date], [type], [count]. *)
Record record : Type := {
  date : Z;
  type : observable;
  count : Z
}.

Record frame : Type := {
  days : list Z;
  columns : list (observable * list Q)
}.

(** [pd.DataFrame(demand_dict)]: columns of unequal length are refused. *)
Definition DataFrame (days : list Z) (columns : list (observable * list Q))
  : outcome frame :=
  if forallb (fun c => Nat.eqb (length (snd c)) (length days)) columns
  then Returned {| days := days; columns := columns |}
  else Raised ValueError.

(** [df.melt(id_vars=['date'], value_vars=...)]: the value columns one
    after the other, each against the [date] column. *)
Definition melt (date : list Z) (value_vars : list (observable * list Z))
  : list record :=
  flat_map (fun '(v, c) =>
              zip_with (fun d n => {| date := d; type := v; count := n |})
                       date c)
           value_vars.

(** *** [run_SEIR], lines 43-149 *)

(** At [population = 0] line 26 divides by zero: the derivative is [nan],
    so is the Recovered series after its first entry, and the store of
    line 125 raises [ValueError] on it.  Elsewhere the loop runs on the
    series as they are. *)
Definition run_SEIR (odeint : integrator)
           (population intensive_units : Z)
           (date_of_first_infection date_of_lockdown : Z)
  : outcome (list record) :=
  let days_before_lockdown :=
    days_before_lockdown date_of_first_infection date_of_lockdown in
  let '(X, S_, E_, I_, R_) :=
    solve odeint model population E0 beta0 days_before_lockdown beta1
          gamma sigma daysTotal in
  let F := found I_ in
  let U := icu_demand I_ in
  let P := probability I_ population in
  let* D := if (population =? 0)%Z
            then Raised ValueError
            else estimate_deaths infectionFatalityRateA infectionFatalityRateB
                   intensive_units daysTotal X U R_ in
  let D := Shared.delay (map inject_Z D)
             (- timeInfected + days_presymptomatic + symptomToHospitalLag
              + timeInHospital + communicationLag) in
  let* df := DataFrame X [(susceptible, S_); (exposed, E_); (infectious, I_);
                          (recovered, R_); (deaths, D)] in
  let* date := Series_apply (date_add date_of_first_infection) (days df) in
  let df := map (fun '(v, c) => (v, map round c)) (columns df) in
  Returned (melt date df).

(** *** Vocabulary of the statements *)

(** A series that never goes down from one day to the next. *)
Definition non_decreasing (R : list Q) : Prop :=
  forall (t : nat) (r r' : Q),
    R !! t = Some r -> R !! S t = Some r' -> r <= r'.

Definition non_decreasingZ (D : list Z) : Prop :=
  forall (t : nat) (d d' : Z),
    D !! t = Some d -> D !! S t = Some d' -> (d <= d')%Z.

Definition in_int64 (n : Z) : Prop :=
  (int64_min <= n <= int64_max)%Z.

(** The horizon lies within the calendar: every [date + timedelta] of
    line 141 is a date. *)
Definition horizon_fits (date_of_first_infection : Z) : Prop :=
  (date_min <= date_of_first_infection)%Z
  /\ (date_of_first_infection + (daysTotal - 1) <= date_max)%Z.

(** The integers that a float holds exactly: up to [2^53] either way. *)
Definition exact_bound : Q := inject_Z (2 ^ 53).

Definition within_exact (r : Q) : Prop :=
  - exact_bound <= r /\ r <= exact_bound.

(** What [scipy.integrate.odeint] documents of its result: an array of
    shape [(len(t), len(y0))], one row per requested time. *)
Definition row_per_time (odeint : integrator) : Prop :=
  forall (func : state -> Q -> state) (y0 : state) (t : list Q),
    length (odeint func y0 t) = length t.

(** The values of a run, named after the variables of [run_SEIR] that
    hold them: the array [y_data_var] that [solve] gets from the integrator,
    the deaths [D] after the final delay, and the melted table. *)
Definition run_y_data_var (odeint : integrator) (population : Z)
           (date_of_first_infection date_of_lockdown : Z) : list state :=
  odeint (fun Y x => model Y x population beta0
                       (days_before_lockdown date_of_first_infection
                                             date_of_lockdown)
                       beta1 gamma sigma)
         (inject_Z (population - E0), inject_Z E0, 0, 0)
         (map inject_Z (arange daysTotal)).

Definition run_D (odeint : integrator) (population intensive_units : Z)
           (date_of_first_infection date_of_lockdown : Z) : list Q :=
  let y := run_y_data_var odeint population date_of_first_infection
                          date_of_lockdown in
  Shared.delay
    (map inject_Z
         (stored_deaths infectionFatalityRateA infectionFatalityRateB
                        intensive_units (icu_demand (column_I y))
                        (column_R y) 0 0%Z))
    (- timeInfected + days_presymptomatic + symptomToHospitalLag
     + timeInHospital + communicationLag).

Definition run_table (odeint : integrator) (population intensive_units : Z)
           (date_of_first_infection date_of_lockdown : Z) : list record :=
  let y := run_y_data_var odeint population date_of_first_infection
                          date_of_lockdown in
  melt (map (fun x => (date_of_first_infection + x)%Z) (arange daysTotal))
       [(susceptible, map round (column_S y));
        (exposed, map round (column_E y));
        (infectious, map round (column_I y));
        (recovered, map round (column_R y));
        (deaths, map round (run_D odeint population intensive_units
                                  date_of_first_infection date_of_lockdown))].

(** The Recovered series of a run stays within the integers that a
    float holds exactly. *)
Definition recovered_in_range (odeint : integrator) (population : Z)
           (date_of_first_infection date_of_lockdown : Z) : Prop :=
  Forall within_exact
         (column_R (run_y_data_var odeint population date_of_first_infection
                                   date_of_lockdown)).

(** A state of [N] people: no compartment negative, [N] in all. *)
Definition in_simplex (N : Z) (Y : state) : Prop :=
  let '(s, e, i, r) := Y in
  0 <= s /\ 0 <= e /\ 0 <= i /\ 0 <= r /\ s + e + i + r == inject_Z N.

(** An integrator to run the statements on: forward Euler, one step per
    interval of the time grid. *)
Definition axpy (h : Q) (d y : state) : state :=
  let '(d1, d2, d3, d4) := d in
  let '(y1, y2, y3, y4) := y in
  (y1 + h * d1, y2 + h * d2, y3 + h * d3, y4 + h * d4).

Fixpoint euler (func : state -> Q -> state) (y : state) (t : list Q)
  : list state :=
  match t with
  | [] => []
  | x :: t' => y :: euler func (axpy (hd x t' - x) (func y x) y) t'
  end.

(** The states a scheme can build from [y0] when every move adds a
    multiple of a derivative taken at a state already built: the rows and
    stages of forward Euler, of the explicit Runge-Kutta and of the Adams
    schemes, in exact arithmetic. *)
Inductive built_from (func : state -> Q -> state) (y0 : state) : state -> Prop :=
| built_start : built_from func y0 y0
| built_step (y z : state) (h x : Q) :
    built_from func y0 y -> built_from func y0 z ->
    built_from func y0 (axpy h (func z x) y).

(** Every compartment multiplied by one integer. *)
Definition scale (k : Z) (Y : state) : state :=
  let '(s, e, i, r) := Y in
  (inject_Z k * s, inject_Z k * e, inject_Z k * i, inject_Z k * r).

Definition is_deaths (v : observable) : bool :=
  match v with
  | deaths => true
  | _ => false
  end.

(** What [scipy.integrate.odeint] documents of its result: the first row
    is the initial condition. *)
Definition starts_at_y0 (odeint : integrator) : Prop :=
  forall (func : state -> Q -> state) (y0 : state) (x : Q) (t : list Q),
    exists rows : list state, odeint func y0 (x :: t) = y0 :: rows.

(** Integration runs forward from the first time of the grid: on a grid
    of non-negative times the result does not depend on what [func]
    returns at negative times. *)
Definition forward_only (odeint : integrator) : Prop :=
  forall (func func' : state -> Q -> state) (y0 : state) (t : list Q),
    Forall (fun x => 0 <= x) t ->
    (forall (Y : state) (x : Q), 0 <= x -> func Y x = func' Y x) ->
    odeint func y0 t = odeint func' y0 t.

End Model.

Import Model.

(** * Properties *)

(** ** The derivative *)

(** The transmission coefficient of the design document is a step in time:
    [beta0] strictly before the switch day, [beta1] from it on. *)
Lemma spec_beta_step (t beta0 : Q) (daysToSwitch : Z) (beta1 : Q) :
  (t < inject_Z daysToSwitch -> spec_beta t beta0 daysToSwitch beta1 = beta0)
  /\ (~ t < inject_Z daysToSwitch -> spec_beta t beta0 daysToSwitch beta1 = beta1).
Proof.
  unfold spec_beta; split; intros H; destruct (Qlt_le_dec _ _) as [Hlt | Hle];
    try reflexivity.
  - exfalso; exact (Qle_not_lt _ _ Hle H).
  - contradiction.
Qed.

(** C2. For every state, time and parameter set, [model] computes the
    derivative that the design document writes down: [beta] is [beta0] when
    [t < daysToSwitch] and [beta1] otherwise, [dS = -beta*S*I/N],
    [dE = beta*S*I/N - sigma*E], [dI = sigma*E - gamma*I], [dR = gamma*I]. *)
Theorem model_is_spec_derivative
        (Y : state) (t : Q) (N : Z) (beta0 : Q) (daysToSwitch : Z)
        (beta1 gamma sigma : Q) :
  state_eq (model Y t N beta0 daysToSwitch beta1 gamma sigma)
           (spec_derivative Y t N beta0 daysToSwitch beta1 gamma sigma)
  /\ spec_beta t beta0 daysToSwitch beta1
     = (if Qlt_le_dec t (inject_Z daysToSwitch) then beta0 else beta1).
Proof.
  split; [| reflexivity].
  destruct Y as [[[s e] i] r].
  unfold model, spec_derivative, spec_beta, state_eq.
  destruct (Qlt_le_dec t (inject_Z daysToSwitch));
    repeat split; unfold Qdiv; ring.
Qed.

(** The four components of the derivative cancel, whatever the state, the
    time and the parameters: the flow out of a compartment is the flow into
    the next one. *)
Lemma model_total_zero
      (Y : state) (x : Q) (N : Z) (beta0 : Q) (days0 : Z) (beta1 gamma sigma : Q) :
  total (model Y x N beta0 days0 beta1 gamma sigma) == 0.
Proof.
  destruct Y as [[[s e] i] r]. unfold model, total.
  destruct (Qlt_le_dec x (inject_Z days0)); unfold Qdiv; ring.
Qed.

(** Whatever the state, the time and the parameters, the derivative that
    [model] returns satisfies [dS + dE + dI + dR = 0]. *)
Theorem derivative_components_cancel
        (Y : state) (x : Q) (N : Z) (beta0 : Q) (days0 : Z) (beta1 gamma sigma : Q) :
  let '(dS, dE, dI, dR) := model Y x N beta0 days0 beta1 gamma sigma in
  dS + dE + dI + dR == 0.
Proof.
  pose proof (model_total_zero Y x N beta0 days0 beta1 gamma sigma) as H.
  unfold total in H.
  destruct (model Y x N beta0 days0 beta1 gamma sigma) as [[[dS dE] dI] dR].
  exact H.
Qed.

(** The initial condition that [solve] hands to the integrator holds the
    whole population. *)
Lemma initial_total (population E0 : Z) :
  total (inject_Z (population - E0), inject_Z E0, 0, 0) == inject_Z population.
Proof.
  unfold total. rewrite <- !inject_Z_plus.
  replace (population - E0 + E0)%Z with population by lia. ring.
Qed.

Lemma total_axpy (h : Q) (d y : state) :
  total (axpy h d y) == total y + h * total d.
Proof.
  destruct d as [[[d1 d2] d3] d4], y as [[[y1 y2] y3] y4].
  unfold axpy, total. ring.
Qed.

(** A derivative whose components cancel keeps the total of every state
    built from the initial one. *)
Lemma built_from_total (func : state -> Q -> state) (y0 y : state) :
  (forall (z : state) (x : Q), total (func z x) == 0) ->
  built_from func y0 y -> total y == total y0.
Proof.
  intros Hzero Hy. induction Hy as [| y z h x _ IHy _ _]; [reflexivity |].
  rewrite total_axpy, IHy, Hzero. ring.
Qed.

Lemma euler_built_from (func : state -> Q -> state) (y0 : state) (t : list Q) :
  forall y : state,
    built_from func y0 y -> Forall (built_from func y0) (euler func y t).
Proof.
  induction t as [| x t IH]; intros y Hy; cbn [euler]; constructor.
  - exact Hy.
  - apply IH. apply built_step; assumption.
Qed.

(** Every state built from the initial condition of [solve] by adding
    multiples of derivatives of [model] holds the whole population,
    exactly: the total is conserved by the construction of the derivative. *)
Theorem built_states_hold_population
        (population E0 : Z) (beta0 : Q) (days0 : Z) (beta1 gamma sigma : Q)
        (y : state) :
  built_from (fun Y x => model Y x population beta0 days0 beta1 gamma sigma)
             (inject_Z (population - E0), inject_Z E0, 0, 0) y ->
  total y == inject_Z population.
Proof.
  intros Hy.
  rewrite (built_from_total _ _ _
             (fun z x => model_total_zero z x _ _ _ _ _ _) Hy).
  apply initial_total.
Qed.

Lemma built_states_hold_population_witness :
  total (axpy 1 (model (inject_Z (1000 - 1), inject_Z 1, 0, 0) 0 1000
                       (3 * (5 # 19)) 24 (1.1 * (5 # 19)) (5 # 19) (10 # 27))
              (inject_Z (1000 - 1), inject_Z 1, 0, 0))
  == inject_Z 1000.
Proof.
  apply (built_states_hold_population 1000 1 (3 * (5 # 19)) 24
                                      (1.1 * (5 # 19)) (5 # 19) (10 # 27)).
  exact (built_step
           (fun Y x => model Y x 1000 (3 * (5 # 19)) 24 (1.1 * (5 # 19))
                             (5 # 19) (10 # 27))
           _ _ _ 1 0 (built_start _ _) (built_start _ _)).
Defined.

(** Forward Euler on [model], from the initial condition of [solve]: every
    row holds the whole population, exactly. *)
Lemma euler_conserves_population
      (population E0 : Z) (beta0 : Q) (days0 : Z) (beta1 gamma sigma : Q)
      (t : list Q) :
  Forall (fun row => total row == inject_Z population)
         (euler (fun Y x => model Y x population beta0 days0 beta1 gamma sigma)
                (inject_Z (population - E0), inject_Z E0, 0, 0) t).
Proof.
  eapply Forall_impl; [apply euler_built_from, built_start |].
  intros row Hrow. cbv beta.
  rewrite (built_from_total _ _ _
             (fun z x => model_total_zero z x _ _ _ _ _ _) Hrow).
  apply initial_total.
Qed.

(** ** The delay transform *)

Lemma sample_nat (series : list Q) (t : nat) (x : Q) :
  series !! t = Some x -> Shared.sample series (Z.of_nat t) = x.
Proof.
  intros H. unfold Shared.sample.
  destruct (Z.ltb_spec (Z.of_nat t) 0) as [Hneg | _]; [lia |].
  rewrite Nat2Z.id, H. reflexivity.
Qed.

Lemma delay_length (series : list Q) (shiftDays : Q) :
  length (Shared.delay series shiftDays) = length series.
Proof. unfold Shared.delay. apply length_imap. Qed.

(** C9. A delay of zero days returns the series it was given. *)
Theorem delay_zero (series : list Q) :
  Shared.delay series 0 = series.
Proof.
  unfold Shared.delay.
  apply list_eq; intros t. rewrite list_lookup_imap.
  destruct (series !! t) as [x |] eqn:Hx; [| reflexivity].
  cbn [fmap option_fmap option_map]. f_equal.
  assert (Hpos : inject_Z (Z.of_nat t) - 0 == inject_Z (Z.of_nat t)) by ring.
  destruct (Qlt_le_dec (inject_Z (Z.of_nat t) - 0) 0) as [Hlt | _].
  - exfalso. rewrite Hpos in Hlt.
    apply (Qlt_not_le _ _ Hlt). unfold Qle; simpl; lia.
  - assert (Hk : Qfloor (inject_Z (Z.of_nat t) - 0) = Z.of_nat t).
    { rewrite (Qfloor_comp _ _ Hpos). apply Qfloor_Z. }
    rewrite Hk.
    assert (Hfrac : Qeq_bool (inject_Z (Z.of_nat t) - 0 - inject_Z (Z.of_nat t)) 0 = true).
    { apply Qeq_bool_iff. ring. }
    rewrite Hfrac. apply (sample_nat _ _ _ Hx).
Qed.

(** ** Arrays and conversions *)

Lemma getitem_Some {A : Type} (a : list A) (i : nat) (v : A) :
  a !! i = Some v -> getitem a i = Returned v.
Proof. intros H. unfold getitem. rewrite H. reflexivity. Qed.

Lemma setitem_lt {A : Type} (a : list A) (i : nat) (v : A) :
  (i < length a)%nat -> setitem a i v = Returned (<[i:=v]> a).
Proof. intros H. unfold setitem. destruct (decide _); [reflexivity | contradiction]. Qed.

Lemma arange_length (n : Z) : length (arange n) = Z.to_nat n.
Proof. unfold arange. rewrite length_map, length_seq. reflexivity. Qed.

(** Dropping the fraction of [n + q], for an integer [n] and [q >= 0],
    never goes below [n]. *)
Lemma trunc_ge (n : Z) (q : Q) :
  0 <= q -> (n <= trunc (inject_Z n + q))%Z.
Proof.
  intros Hq. unfold trunc. destruct q as [a b].
  unfold Qle in Hq; simpl in Hq.
  cbn [Qplus inject_Z Qnum Qden]. rewrite Pos.mul_1_l.
  rewrite <- (Z.quot_mul n (Z.pos b)) at 1 by lia.
  apply Z.quot_le_mono; lia.
Qed.


Lemma to_int64_fits (x : Q) :
  in_int64 (trunc x) -> to_int64 x = Returned (trunc x).
Proof.
  intros [Hlo Hhi]. unfold to_int64. cbv zeta.
  apply Z.leb_le in Hlo. apply Z.leb_le in Hhi. rewrite Hlo, Hhi. reflexivity.
Qed.

Lemma to_int64_overflows (x : Q) :
  ~ in_int64 (trunc x) -> to_int64 x = Raised OverflowError.
Proof.
  intros H. unfold to_int64. cbv zeta.
  destruct (Z.leb_spec int64_min (trunc x)) as [Hlo | Hlo];
    destruct (Z.leb_spec (trunc x) int64_max) as [Hhi | Hhi];
    try reflexivity.
  exfalso. apply H. split; assumption.
Qed.

Lemma in_int64_dec (n : Z) : {in_int64 n} + {~ in_int64 n}.
Proof.
  unfold in_int64.
  destruct (Z_le_dec int64_min n) as [Hlo | Hlo];
    destruct (Z_le_dec n int64_max) as [Hhi | Hhi];
    first [left; split; assumption | right; intros [H1 H2]; contradiction].
Qed.

(** ** The death estimate *)

Section Deaths.

Variables (rateA rateB : Q) (intensive_units : Z) (U R : list Q).

Let body := deaths_body rateA rateB intensive_units U R.
Let stored := stored_deaths rateA rateB intensive_units.

(** The loop from turn [i] on, while the arrays are long enough.  If it
    returns, every value it has stored is within the range of an [int64],
    [D] is unchanged outside [i .. i + len(X) - 1] and holds there what
    [stored_deaths] lists; if it raises, that is the store of a value
    outside the range. *)
Lemma deaths_loop_from (X : list Z) :
  forall (i : nat) (st : deaths_state),
    (i + length X <= length U)%nat ->
    (i + length X <= length R)%nat ->
    (i + length X <= length (D st))%nat ->
    match for_enumerate body i X st with
    | Returned st' =>
        Forall in_int64
               (stored (take (length X) (drop i U))
                       (take (length X) (drop i R)) (RPrev st) (DPrev st))
        /\ D st' = take i (D st)
                   ++ stored (take (length X) (drop i U))
                             (take (length X) (drop i R)) (RPrev st) (DPrev st)
                   ++ drop (i + length X) (D st)
    | Raised e =>
        e = OverflowError
        /\ ~ Forall in_int64
               (stored (take (length X) (drop i U))
                       (take (length X) (drop i R)) (RPrev st) (DPrev st))
    end.
Proof.
  induction X as [| x X' IH]; intros i st HU HR HD.
  - cbn [for_enumerate]. split; [constructor |].
    simpl. rewrite Nat.add_0_r. symmetry. apply take_drop.
  - simpl in HU, HR, HD.
    assert (HiU : (i < length U)%nat) by lia.
    assert (HiR : (i < length R)%nat) by lia.
    assert (HiD : (i < length (D st))%nat) by lia.
    destruct (lookup_lt_is_Some_2 U i HiU) as [u Hu].
    destruct (lookup_lt_is_Some_2 R i HiR) as [r Hr].
    set (IFR := if Qle_bool u (inject_Z intensive_units) then rateA else rateB).
    set (d := trunc (inject_Z (DPrev st) + IFR * (r - RPrev st))).
    set (st1 := {| D := <[i:=d]> (D st); RPrev := r; DPrev := d |}).
    assert (Hstored :
      stored (take (length (x :: X')) (drop i U))
             (take (length (x :: X')) (drop i R)) (RPrev st) (DPrev st)
      = d :: stored (take (length X') (drop (S i) U))
                    (take (length X') (drop (S i) R)) r d).
    { rewrite (drop_S U u i Hu), (drop_S R r i Hr). reflexivity. }
    rewrite Hstored. cbn [for_enumerate].
    destruct (in_int64_dec d) as [Hd | Hd].
    + assert (Hbody : body st i x = Returned st1).
      { unfold body, deaths_body.
        rewrite (getitem_Some _ _ _ Hu). cbn [bind].
        rewrite (getitem_Some _ _ _ Hr). cbn [bind].
        fold IFR. fold d in Hd |- *. rewrite (to_int64_fits _ Hd). cbn [bind].
        rewrite setitem_lt by lia. cbn [bind].
        rewrite (getitem_Some _ _ _ (list_lookup_insert_eq _ _ _ HiD)).
        reflexivity. }
      rewrite Hbody. cbn [bind].
      specialize (IH (S i) st1).
      cbn [D RPrev DPrev st1] in IH. rewrite length_insert in IH.
      specialize (IH ltac:(lia) ltac:(lia) ltac:(lia)).
      destruct (for_enumerate body (S i) X' st1) as [st' | e].
      * destruct IH as [Hfit HD']. split; [constructor; assumption |].
        rewrite HD'.
        rewrite (take_S_r _ _ d) by (apply list_lookup_insert_eq; lia).
        rewrite take_insert_ge by lia.
        rewrite drop_insert_lt by lia.
        rewrite <- app_assoc. cbn [app length].
        replace (S i + length X')%nat with (i + S (length X'))%nat by lia.
        reflexivity.
      * destruct IH as [He Hfit]. split; [exact He |].
        intros Hall. inversion Hall; subst. contradiction.
    + assert (Hbody : body st i x = Raised OverflowError).
      { unfold body, deaths_body.
        rewrite (getitem_Some _ _ _ Hu). cbn [bind].
        rewrite (getitem_Some _ _ _ Hr). cbn [bind].
        fold IFR. fold d in Hd |- *. rewrite (to_int64_overflows _ Hd).
        reflexivity. }
      rewrite Hbody. cbn [bind]. split; [reflexivity |].
      intros Hall. inversion Hall; subst. contradiction.
Qed.

(** The whole loop, on arrays of the modelled horizon. *)
Lemma estimate_deaths_outcome (daysTotal : Z) (X : list Z) :
  length X = Z.to_nat daysTotal ->
  length U = length X ->
  length R = length X ->
  match estimate_deaths rateA rateB intensive_units daysTotal X U R with
  | Returned D => Forall in_int64 D /\ D = stored U R 0 0%Z
  | Raised e => e = OverflowError /\ ~ Forall in_int64 (stored U R 0 0%Z)
  end.
Proof.
  intros HX HU HR. unfold estimate_deaths.
  pose proof (deaths_loop_from X 0
                {| D := arange daysTotal; RPrev := 0; DPrev := 0%Z |}) as H.
  cbn [D RPrev DPrev take drop app Nat.add] in H.
  rewrite arange_length in H.
  specialize (H ltac:(lia) ltac:(lia) ltac:(lia)).
  rewrite (take_ge U), (take_ge R) in H by lia.
  rewrite drop_ge in H by (rewrite arange_length; lia).
  rewrite app_nil_r in H. fold body.
  destruct (for_enumerate body 0 X _) as [st' | e]; cbn [bind].
  - destruct H as [Hfit HD]. rewrite HD. split; [exact Hfit | reflexivity].
  - exact H.
Qed.

(** It returns when no stored value leaves the range, with [D] what
    [stored_deaths] lists from [RPrev = 0], [DPrev = 0]. *)
Lemma estimate_deaths_stored (daysTotal : Z) (X : list Z) :
  length X = Z.to_nat daysTotal ->
  length U = length X ->
  length R = length X ->
  Forall in_int64 (stored U R 0 0%Z) ->
  estimate_deaths rateA rateB intensive_units daysTotal X U R
  = Returned (stored U R 0 0%Z).
Proof.
  intros HX HU HR Hfit.
  pose proof (estimate_deaths_outcome daysTotal X HX HU HR) as H.
  destruct (estimate_deaths _ _ _ _ _ _ _) as [D | e].
  - destruct H as [_ ->]. reflexivity.
  - destruct H as [_ H]. contradiction.
Qed.

(** What it returns is what [stored_deaths] lists, all within the range. *)
Lemma estimate_deaths_Returned (daysTotal : Z) (X : list Z) (D : list Z) :
  length X = Z.to_nat daysTotal ->
  length U = length X ->
  length R = length X ->
  estimate_deaths rateA rateB intensive_units daysTotal X U R = Returned D ->
  D = stored U R 0 0%Z /\ Forall in_int64 D.
Proof.
  intros HX HU HR HD.
  pose proof (estimate_deaths_outcome daysTotal X HX HU HR) as H.
  rewrite HD in H. destruct H as [Hfit HDs]. split; assumption.
Qed.

Lemma stored_deaths_length :
  forall (U' R' : list Q) (rp : Q) (dp : Z),
    length R' = length U' -> length (stored U' R' rp dp) = length U'.
Proof.
  induction U' as [| u U' IH]; intros [| r R'] rp dp H; simpl in *;
    try reflexivity; try discriminate.
  f_equal. apply IH. lia.
Qed.

End Deaths.

(** ** More on conversions *)

Lemma trunc_inject_Z (n : Z) : trunc (inject_Z n) = n.
Proof. unfold trunc; simpl. apply Z.quot_1_r. Qed.

Lemma trunc_floor (x : Q) : 0 <= x -> trunc x = Qfloor x.
Proof.
  destruct x as [a b]. unfold Qle, trunc, Qfloor; simpl. intros H.
  apply Z.quot_div_nonneg; lia.
Qed.

Lemma trunc_ceiling (x : Q) : x <= 0 -> trunc x = Qceiling x.
Proof.
  destruct x as [a b]. unfold Qle, trunc, Qceiling, Qfloor; simpl. intros H.
  rewrite <- (Z.opp_involutive a) at 1.
  rewrite Z.quot_opp_l by lia. f_equal.
  apply Z.quot_div_nonneg; lia.
Qed.

(** Dropping the fraction keeps the order. *)
Lemma trunc_monotone (x y : Q) : x <= y -> (trunc x <= trunc y)%Z.
Proof.
  intros Hxy.
  destruct (Qlt_le_dec x 0) as [Hx | Hx], (Qlt_le_dec y 0) as [Hy | Hy].
  - rewrite !trunc_ceiling by (apply Qlt_le_weak; assumption).
    apply Qceiling_resp_le, Hxy.
  - rewrite (trunc_ceiling x) by (apply Qlt_le_weak; assumption).
    rewrite (trunc_floor y) by assumption.
    apply Z.le_trans with (m := 0%Z).
    + change 0%Z with (Qceiling 0). apply Qceiling_resp_le, Qlt_le_weak, Hx.
    + change 0%Z with (Qfloor 0). apply Qfloor_resp_le, Hy.
  - exfalso. apply (Qlt_not_le _ _ Hy). apply Qle_trans with (y := x); assumption.
  - rewrite !trunc_floor by assumption. apply Qfloor_resp_le, Hxy.
Qed.

(** On a non-negative value it loses less than one and adds nothing. *)
Lemma trunc_nonneg_bounds (x : Q) :
  0 <= x -> inject_Z (trunc x) <= x /\ x < inject_Z (trunc x) + 1.
Proof.
  intros Hx. rewrite (trunc_floor x Hx). split.
  - apply Qfloor_le.
  - change 1 with (inject_Z 1). rewrite <- inject_Z_plus. apply Qlt_floor.
Qed.

Lemma round_inject_Z (n : Z) : round (inject_Z n) = n.
Proof.
  unfold round. rewrite Qfloor_Z.
  assert (H : inject_Z n - inject_Z n < 1 # 2).
  { assert (E : inject_Z n - inject_Z n == 0) by ring. rewrite E. reflexivity. }
  destruct (Qcompare_spec (inject_Z n - inject_Z n) (1 # 2)) as [E | _ | G].
  - rewrite E in H. discriminate H.
  - reflexivity.
  - exfalso. exact (Qlt_irrefl _ (Qlt_trans _ _ _ H G)).
Qed.

(** Dropping the fraction stays within integer bounds. *)
Lemma trunc_within (lo hi : Z) (x : Q) :
  inject_Z lo <= x -> x <= inject_Z hi -> (lo <= trunc x <= hi)%Z.
Proof.
  intros Hlo Hhi. split.
  - rewrite <- (trunc_inject_Z lo). apply trunc_monotone, Hlo.
  - rewrite <- (trunc_inject_Z hi). apply trunc_monotone, Hhi.
Qed.

(** It never goes above a non-negative bound of the value. *)
Lemma trunc_le_bound (b x : Q) :
  0 <= b -> x <= b -> inject_Z (trunc x) <= b.
Proof.
  intros Hb Hx. destruct (Qlt_le_dec x 0) as [Hneg | Hpos].
  - apply Qle_trans with (y := 0); [| exact Hb].
    change 0 with (inject_Z 0). rewrite <- Zle_Qle.
    rewrite <- (trunc_inject_Z 0). apply trunc_monotone.
    apply Qlt_le_weak, Hneg.
  - apply Qle_trans with (y := x); [| exact Hx].
    apply (trunc_nonneg_bounds x Hpos).
Qed.
Lemma non_decreasing_tail (r : Q) (R : list Q) :
  non_decreasing (r :: R) -> non_decreasing R.
Proof. intros H t a b Ha Hb. exact (H (S t) a b Ha Hb). Qed.

(** What the loop stores never goes down: every value is the previous one
    plus a non-negative amount, with its fraction dropped. *)
Lemma stored_deaths_non_decreasing (rateA rateB : Q) (intensive_units : Z) :
  0 <= rateA -> 0 <= rateB ->
  forall (U R : list Q) (rp : Q) (dp : Z),
    non_decreasing R ->
    non_decreasingZ (stored_deaths rateA rateB intensive_units U R rp dp).
Proof.
  intros HA HB. induction U as [| u U IH]; intros [| r R] rp dp HR;
    try (intros t d d' Hd; destruct t; discriminate).
  intros t d d' Hd Hd'. cbn [stored_deaths] in Hd, Hd'.
  destruct t as [| t].
  - cbn in Hd. injection Hd as <-.
    destruct U as [| u' U]; [discriminate |].
    destruct R as [| r' R]; [discriminate |].
    cbn in Hd'. injection Hd' as <-.
    apply trunc_ge. apply Qmult_le_0_compat.
    + destruct (Qle_bool u' (inject_Z intensive_units)); assumption.
    + assert (Hr : r <= r') by exact (HR 0%nat r r' eq_refl eq_refl).
      unfold Qminus. rewrite <- (Qplus_opp_r r).
      apply Qplus_le_l. exact Hr.
  - exact (IH R r _ (non_decreasing_tail _ _ HR) t d d' Hd Hd').
Qed.



(** ** More on the death estimate *)

Lemma non_decreasing_cons (rp r : Q) (R : list Q) :
  non_decreasing (rp :: r :: R) -> rp <= r /\ non_decreasing (r :: R).
Proof.
  intros H. split.
  - exact (H 0%nat rp r eq_refl eq_refl).
  - exact (non_decreasing_tail _ _ H).
Qed.

Lemma non_decreasing_from (r0 : Q) (R : list Q) :
  non_decreasing R ->
  (forall r, R !! 0%nat = Some r -> r0 <= r) ->
  non_decreasing (r0 :: R).
Proof.
  intros HR H0 [| t] a b Ha Hb.
  - injection Ha as <-. apply H0. exact Hb.
  - exact (HR t a b Ha Hb).
Qed.

Section StoredDeaths.

Variables (rateA rateB : Q).

(** More capacity never gives a higher estimate. *)
Lemma stored_deaths_capacity (units units' : Z) :
  rateA <= rateB -> (units <= units')%Z ->
  forall (U R : list Q) (rp : Q) (dp dp' : Z),
    (dp' <= dp)%Z ->
    non_decreasing (rp :: R) ->
    forall (t : nat) (d d' : Z),
      stored_deaths rateA rateB units U R rp dp !! t = Some d ->
      stored_deaths rateA rateB units' U R rp dp' !! t = Some d' ->
      (d' <= d)%Z.
Proof.
  intros HAB Hunits.
  induction U as [| u U IH]; intros [| r0 R] rp dp dp' Hdp Hmono t d d' Hd Hd';
    try (destruct t; discriminate).
  cbn [stored_deaths] in Hd, Hd'.
  destruct (non_decreasing_cons _ _ _ Hmono) as [Hstep Hmono'].
  assert (Hdelta : 0 <= r0 - rp).
  { unfold Qminus. rewrite <- (Qplus_opp_r rp). apply Qplus_le_l, Hstep. }
  assert (Hrate :
    (if Qle_bool u (inject_Z units') then rateA else rateB)
    <= (if Qle_bool u (inject_Z units) then rateA else rateB)).
  { destruct (Qle_bool u (inject_Z units)) eqn:Hu.
    - assert (Hu' : Qle_bool u (inject_Z units') = true).
      { apply Qle_bool_iff. apply Qle_bool_iff in Hu.
        apply Qle_trans with (y := inject_Z units); [exact Hu |].
        rewrite <- Zle_Qle. exact Hunits. }
      rewrite Hu'. apply Qle_refl.
    - destruct (Qle_bool u (inject_Z units')); [exact HAB | apply Qle_refl]. }
  assert (Hstored :
    (trunc (inject_Z dp'
            + (if Qle_bool u (inject_Z units') then rateA else rateB) * (r0 - rp))
     <= trunc (inject_Z dp
               + (if Qle_bool u (inject_Z units) then rateA else rateB) * (r0 - rp)))%Z).
  { apply trunc_monotone. apply Qplus_le_compat.
    - rewrite <- Zle_Qle. exact Hdp.
    - apply Qmult_le_compat_r; assumption. }
  destruct t as [| t].
  - cbn in Hd, Hd'. injection Hd as <-. injection Hd' as <-. exact Hstored.
  - cbn in Hd, Hd'. exact (IH R r0 _ _ Hstored Hmono' t d d' Hd Hd').
Qed.

(** Against the recurrence on unconverted values: never above it, and
    behind it by less than one for every day gone by. *)
Lemma stored_deaths_behind (intensive_units : Z) :
  0 <= rateA -> 0 <= rateB ->
  forall (U R : list Q) (rp : Q) (dp : Z) (ep : Q) (c : Z),
    (0 <= dp)%Z -> inject_Z dp <= ep -> ep <= inject_Z dp + inject_Z c ->
    non_decreasing (rp :: R) ->
    forall (t : nat) (d : Z) (e : Q),
      stored_deaths rateA rateB intensive_units U R rp dp !! t = Some d ->
      spec_deaths rateA rateB intensive_units U R rp ep !! t = Some e ->
      inject_Z d <= e /\ e < inject_Z d + inject_Z (c + Z.of_nat t + 1).
Proof.
  intros HA HB.
  induction U as [| u U IH]; intros [| r0 R] rp dp ep c Hdp Hle Hlt Hmono t d e Hd He;
    try (destruct t; discriminate).
  cbn [stored_deaths spec_deaths] in Hd, He.
  destruct (non_decreasing_cons _ _ _ Hmono) as [Hstep Hmono'].
  set (rate := if Qle_bool u (inject_Z intensive_units) then rateA else rateB) in *.
  assert (Hinc : 0 <= rate * (r0 - rp)).
  { apply Qmult_le_0_compat.
    - unfold rate. destruct (Qle_bool u _); assumption.
    - unfold Qminus. rewrite <- (Qplus_opp_r rp). apply Qplus_le_l, Hstep. }
  assert (Hx : 0 <= inject_Z dp + rate * (r0 - rp)).
  { rewrite <- (Qplus_0_l 0). apply Qplus_le_compat; [| exact Hinc].
    change 0 with (inject_Z 0). rewrite <- Zle_Qle. exact Hdp. }
  destruct (trunc_nonneg_bounds _ Hx) as [Hlo Hhi].
  set (d0 := trunc (inject_Z dp + rate * (r0 - rp))) in *.
  set (e0 := ep + rate * (r0 - rp)) in *.
  assert (Hd0 : (0 <= d0)%Z).
  { apply Z.le_trans with (m := dp); [exact Hdp | apply trunc_ge, Hinc]. }
  assert (Hle0 : inject_Z d0 <= e0).
  { apply Qle_trans with (y := inject_Z dp + rate * (r0 - rp)); [exact Hlo |].
    unfold e0. apply Qplus_le_l, Hle. }
  assert (Hlt0 : e0 < inject_Z d0 + inject_Z (c + 1)).
  { rewrite inject_Z_plus. unfold e0.
    apply Qle_lt_trans
      with (y := inject_Z dp + rate * (r0 - rp) + inject_Z c).
    - apply Qle_trans with (y := inject_Z dp + inject_Z c + rate * (r0 - rp)).
      + apply Qplus_le_l, Hlt.
      + apply Qle_lteq. right. ring.
    - apply Qlt_le_trans with (y := inject_Z d0 + 1 + inject_Z c).
      + apply Qplus_lt_l, Hhi.
      + apply Qle_lteq. right. change (inject_Z 1) with 1. ring. }
  destruct t as [| t].
  - cbn in Hd, He. injection Hd as <-. injection He as <-.
    split; [exact Hle0 |]. rewrite Z.add_0_r. exact Hlt0.
  - cbn in Hd, He.
    destruct (IH R r0 d0 e0 (c + 1)%Z Hd0 Hle0 (Qlt_le_weak _ _ Hlt0)
                 Hmono' t d e Hd He) as [H1 H2].
    split; [exact H1 |].
    replace (c + Z.of_nat (S t) + 1)%Z with (c + 1 + Z.of_nat t + 1)%Z by lia.
    exact H2.
Qed.

(** The estimate of a day reads nothing of the days after it. *)
Lemma stored_deaths_take (intensive_units : Z) (k : nat) :
  forall (U R : list Q) (rp : Q) (dp : Z),
    stored_deaths rateA rateB intensive_units (take k U) (take k R) rp dp
    = take k (stored_deaths rateA rateB intensive_units U R rp dp).
Proof.
  induction k as [| k IH]; intros U R rp dp; [reflexivity |].
  destruct U as [| u U], R as [| r R]; try reflexivity.
  cbn [take stored_deaths]. f_equal. apply IH.
Qed.

End StoredDeaths.

(** While demand stays within capacity the higher rate is not read. *)
Lemma stored_deaths_within_capacity (rateA rateB rateB' : Q) (intensive_units : Z) :
  forall (U R : list Q) (rp : Q) (dp : Z),
    Forall (fun u => u <= inject_Z intensive_units) U ->
    stored_deaths rateA rateB intensive_units U R rp dp
    = stored_deaths rateA rateB' intensive_units U R rp dp.
Proof.
  induction U as [| u U IH]; intros [| r R] rp dp HU; try reflexivity.
  inversion HU as [| ? ? Hu HU']; subst.
  cbn [stored_deaths].
  apply Qle_bool_iff in Hu. rewrite Hu. f_equal. apply IH, HU'.
Qed.

(** With non-negative rates, from a non-negative value on and on a
    Recovered series that does not go down, nothing stored is negative. *)
Lemma stored_deaths_non_negative (rateA rateB : Q) (intensive_units : Z) :
  0 <= rateA -> 0 <= rateB ->
  forall (U R : list Q) (rp : Q) (dp : Z),
    (0 <= dp)%Z ->
    non_decreasing (rp :: R) ->
    Forall (fun d => (0 <= d)%Z)
           (stored_deaths rateA rateB intensive_units U R rp dp).
Proof.
  intros HA HB.
  induction U as [| u U IH]; intros [| r0 R] rp dp Hdp Hmono;
    try constructor.
  - destruct (non_decreasing_cons _ _ _ Hmono) as [Hstep _].
    apply Z.le_trans with (m := dp); [exact Hdp |].
    apply trunc_ge. apply Qmult_le_0_compat.
    + destruct (Qle_bool u _); assumption.
    + Lqa.lra.
  - apply IH.
    + destruct (non_decreasing_cons _ _ _ Hmono) as [Hstep _].
      apply Z.le_trans with (m := dp); [exact Hdp |].
      apply trunc_ge. apply Qmult_le_0_compat.
      * destruct (Qle_bool u _); assumption.
      * Lqa.lra.
    + exact (non_decreasing_tail _ _ Hmono).
Qed.

(** ** The range of the stored values *)

Section Range.

Variables (rateA rateB : Q) (intensive_units : Z).
Hypothesis rateA_unit : 0 <= rateA /\ rateA <= 1.
Hypothesis rateB_unit : 0 <= rateB /\ rateB <= 1.

Variable M : Z.
Hypothesis M_non_negative : (0 <= M)%Z.

Let within (r : Q) : Prop := - inject_Z M <= r /\ r <= inject_Z M.

Lemma rate_unit (u : Q) :
  0 <= (if Qle_bool u (inject_Z intensive_units) then rateA else rateB)
  /\ (if Qle_bool u (inject_Z intensive_units) then rateA else rateB) <= 1.
Proof. destruct (Qle_bool u _); assumption. Qed.

(** On a series that does not go down: between [-M] and [2 * M]. *)
Lemma stored_deaths_range_monotone :
  forall (U R : list Q) (rp : Q) (dp : Z),
    non_decreasing (rp :: R) ->
    Forall within R ->
    (- M <= dp)%Z -> inject_Z dp <= inject_Z M + rp ->
    Forall (fun d => (- M <= d <= 2 * M)%Z)
           (stored_deaths rateA rateB intensive_units U R rp dp).
Proof.
  induction U as [| u U IH]; intros [| r0 R] rp dp Hmono HR Hlo Hhi;
    try constructor.
  all: destruct (non_decreasing_cons _ _ _ Hmono) as [Hstep Hmono'].
  all: inversion HR as [| ? ? [Hr0 Hr0'] HR']; subst.
  all: destruct (rate_unit u) as [Hrate Hrate'].
  all: set (rate := if Qle_bool u (inject_Z intensive_units)
                    then rateA else rateB) in *.
  all: assert (Hinc : 0 <= rate * (r0 - rp) /\ rate * (r0 - rp) <= r0 - rp)
         by (split; Lqa.nra).
  all: assert (HM : 0 <= inject_Z M)
         by (change 0 with (inject_Z 0); rewrite <- Zle_Qle; exact M_non_negative).
  all: assert (Hlo' : inject_Z (- M) <= inject_Z dp)
         by (rewrite <- Zle_Qle; exact Hlo).
  all: rewrite inject_Z_opp in Hlo'.
  all: assert (Hd_lo : (- M <= trunc (inject_Z dp + rate * (r0 - rp)))%Z)
         by (apply Z.le_trans with (m := dp); [exact Hlo | apply trunc_ge, Hinc]).
  all: assert (Hd_hi : inject_Z (trunc (inject_Z dp + rate * (r0 - rp)))
                       <= inject_Z M + r0)
         by (apply trunc_le_bound; Lqa.lra).
  - split; [exact Hd_lo |].
    rewrite Zle_Qle, inject_Z_mult. change (inject_Z 2) with 2.
    Lqa.lra.
  - apply IH; assumption.
Qed.

(** On any series: each turn adds at most [2 * M] either way. *)
Lemma stored_deaths_range :
  forall (U R : list Q) (rp : Q) (dp c : Z),
    within rp ->
    Forall within R ->
    (- c <= dp <= c)%Z ->
    Forall (fun d => (- (c + Z.of_nat (length R) * (2 * M)) <= d
                      <= c + Z.of_nat (length R) * (2 * M))%Z)
           (stored_deaths rateA rateB intensive_units U R rp dp).
Proof.
  induction U as [| u U IH]; intros [| r0 R] rp dp c [Hrp Hrp'] HR Hdp;
    try constructor.
  all: inversion HR as [| ? ? [Hr0 Hr0'] HR']; subst.
  all: destruct (rate_unit u) as [Hrate Hrate'].
  all: set (rate := if Qle_bool u (inject_Z intensive_units)
                    then rateA else rateB) in *.
  all: assert (HM : 0 <= inject_Z M)
         by (change 0 with (inject_Z 0); rewrite <- Zle_Qle; exact M_non_negative).
  all: assert (Hinc : - (2 * inject_Z M) <= rate * (r0 - rp)
                      /\ rate * (r0 - rp) <= 2 * inject_Z M)
         by (split; Lqa.nra).
  all: assert (Hdq : inject_Z (- c) <= inject_Z dp /\ inject_Z dp <= inject_Z c)
         by (split; rewrite <- Zle_Qle; lia).
  all: rewrite inject_Z_opp in Hdq.
  all: assert (Hd : (- (c + 2 * M)
                     <= trunc (inject_Z dp + rate * (r0 - rp))
                     <= c + 2 * M)%Z)
         by (apply trunc_within;
             rewrite ?inject_Z_opp, inject_Z_plus, inject_Z_mult;
             change (inject_Z 2) with 2; Lqa.lra).
  - cbn [length]. lia.
  - specialize (IH R r0 _ (c + 2 * M)%Z (conj Hr0 Hr0') HR' Hd).
    eapply Forall_impl; [exact IH |].
    intros d. cbn [length]. cbv beta. lia.
Qed.

End Range.

(** From [RPrev = 0], [DPrev = 0], with rates between 0 and 1, on a
    Recovered series that does not go down and stays within the integers a
    float holds exactly: every store is within the range of an [int64]. *)
Lemma stored_deaths_fit_monotone (rateA rateB : Q) (intensive_units : Z) :
  0 <= rateA /\ rateA <= 1 -> 0 <= rateB /\ rateB <= 1 ->
  forall (U R : list Q),
    non_decreasing R ->
    Forall within_exact R ->
    Forall in_int64 (stored_deaths rateA rateB intensive_units U R 0 0%Z).
Proof.
  intros HA HB U R Hmono HR.
  destruct U as [| u U], R as [| r0 R]; try constructor.
  all: inversion HR as [| ? ? [Hr0 Hr0'] HR']; subst.
  all: unfold exact_bound in Hr0, Hr0'.
  all: destruct (rate_unit rateA rateB intensive_units HA HB u) as [Hrate Hrate'].
  all: set (rate := if Qle_bool u (inject_Z intensive_units)
                    then rateA else rateB) in *.
  all: assert (HM : 0 <= inject_Z (2 ^ 53)) by (unfold Qle; simpl; lia).
  all: assert (Hx : - inject_Z (2 ^ 53) <= inject_Z 0 + rate * (r0 - 0)
                    /\ inject_Z 0 + rate * (r0 - 0) <= inject_Z (2 ^ 53)
                    /\ inject_Z 0 + rate * (r0 - 0) <= inject_Z (2 ^ 53) + r0)
         by (change (inject_Z 0) with 0; repeat split; Lqa.nra).
  all: assert (Hd : (- 2 ^ 53 <= trunc (inject_Z 0 + rate * (r0 - 0)) <= 2 ^ 53)%Z)
         by (apply trunc_within; [rewrite inject_Z_opp |]; apply Hx).
  - unfold in_int64, int64_min, int64_max. lia.
  - eapply Forall_impl.
    + apply (stored_deaths_range_monotone rateA rateB intensive_units HA HB
               (2 ^ 53)%Z ltac:(lia) U R r0).
      * exact Hmono.
      * exact HR'.
      * apply Hd.
      * apply trunc_le_bound; [Lqa.lra | apply Hx].
    + intros d. unfold in_int64, int64_min, int64_max. cbv beta. lia.
Qed.

(** The same on any series of at most 511 days. *)
Lemma stored_deaths_fit (rateA rateB : Q) (intensive_units : Z) :
  0 <= rateA /\ rateA <= 1 -> 0 <= rateB /\ rateB <= 1 ->
  forall (U R : list Q),
    (length R <= 511)%nat ->
    Forall within_exact R ->
    Forall in_int64 (stored_deaths rateA rateB intensive_units U R 0 0%Z).
Proof.
  intros HA HB U R Hlen HR.
  eapply Forall_impl.
  - apply (stored_deaths_range rateA rateB intensive_units HA HB
             (2 ^ 53)%Z ltac:(lia) U R 0 0%Z 0%Z).
    + split; unfold Qle; simpl; lia.
    + exact HR.
    + lia.
  - intros d. unfold in_int64, int64_min, int64_max. cbv beta. lia.
Qed.

(** C5. When the Recovered trajectory is non-decreasing and the two fatality
    rates are non-negative, every death series [D] that the loop of lines
    120-127 returns, before the final delay, has [D[t] >= D[t-1]] for every
    [t] in [1 .. daysTotal-1].  The loop does return one when the rates are
    at most 1 and the trajectory stays within the integers that a float
    holds exactly: no store then leaves the range of an [int64]. *)
Theorem deaths_non_decreasing
        (rateA rateB : Q) (intensive_units daysTotal : Z) (X : list Z)
        (U R : list Q) :
  0 <= rateA -> 0 <= rateB ->
  length X = Z.to_nat daysTotal ->
  length U = length X ->
  length R = length X ->
  non_decreasing R ->
  (forall D : list Z,
      estimate_deaths rateA rateB intensive_units daysTotal X U R = Returned D ->
      length D = Z.to_nat daysTotal
      /\ forall (t : nat) (d d' : Z),
          (1 <= t)%nat -> (t < Z.to_nat daysTotal)%nat ->
          D !! (t - 1)%nat = Some d -> D !! t = Some d' -> (d <= d')%Z)
  /\ (rateA <= 1 -> rateB <= 1 -> Forall within_exact R ->
      returns (estimate_deaths rateA rateB intensive_units daysTotal X U R)).
Proof.
  intros HA HB HX HU HR Hmono. split.
  - intros D HD.
    destruct (estimate_deaths_Returned _ _ _ _ _ _ _ _ HX HU HR HD) as [-> _].
    split; [rewrite stored_deaths_length; lia |].
    intros t d d' Ht _ Hd Hd'.
    destruct t as [| t]; [lia |].
    replace (S t - 1)%nat with t in Hd by lia.
    exact (stored_deaths_non_decreasing rateA rateB intensive_units HA HB
             U R 0 0%Z Hmono t d d' Hd Hd').
  - intros HA1 HB1 Hrange. eexists.
    apply estimate_deaths_stored; try assumption.
    apply stored_deaths_fit_monotone; try assumption; split; assumption.
Qed.

(** Four days on which the Recovered series goes up from zero. *)
Lemma sample_R_non_decreasing : non_decreasing [0; 500; 1250; 2000].
Proof.
  intros t r r' Hr Hr'.
  destruct t as [| [| [| [| t]]]]; simpl in Hr, Hr';
    try discriminate; injection Hr as <-; injection Hr' as <-;
    unfold Qle; simpl; lia.
Qed.

Lemma sample_R_starts_at_zero :
  forall r : Q, [0; 500; 1250; 2000] !! 0%nat = Some r -> 0 <= r.
Proof. intros r Hr. injection Hr as <-. apply Qle_refl. Qed.

Lemma sample_R_within_exact : Forall within_exact [0; 500; 1250; 2000].
Proof.
  repeat constructor; unfold exact_bound, Qle; simpl; lia.
Qed.

Lemma deaths_non_decreasing_witness :
  (forall D : list Z,
      estimate_deaths 0.01 0.03 10 4 (arange 4) [1; 12; 9; 3]
                      [0; 500; 1250; 2000] = Returned D ->
      length D = Z.to_nat 4
      /\ forall (t : nat) (d d' : Z),
          (1 <= t)%nat -> (t < Z.to_nat 4)%nat ->
          D !! (t - 1)%nat = Some d -> D !! t = Some d' -> (d <= d')%Z)
  /\ returns (estimate_deaths 0.01 0.03 10 4 (arange 4) [1; 12; 9; 3]
                              [0; 500; 1250; 2000]).
Proof.
  destruct (deaths_non_decreasing 0.01 0.03 10 4 (arange 4) [1; 12; 9; 3]
                                  [0; 500; 1250; 2000]) as [Hmono Hreturns].
  - unfold Qle; simpl; lia.
  - unfold Qle; simpl; lia.
  - reflexivity.
  - reflexivity.
  - reflexivity.
  - exact sample_R_non_decreasing.
  - split; [exact Hmono |].
    apply Hreturns.
    + unfold Qle; simpl; lia.
    + unfold Qle; simpl; lia.
    + exact sample_R_within_exact.
Defined.

(** C3. The recurrence of the design document sets
    [D[t] = DPrev + IFR[t] * (R[t] - RPrev)]; the loop of lines 120-127
    stores that value into an integer array, so its fraction is lost and the
    loss is carried on through [DPrev].  On [R = [0, 500, 1250, 2000]] below
    capacity the loop returns [[0, 5, 12, 19]] where the recurrence gives
    [[0, 5, 12.5, 20]]. *)
Theorem deaths_loop_drops_fractions (rateB : Q) :
  estimate_deaths 0.01 rateB 1 4 (arange 4) [0; 0; 0; 0] [0; 500; 1250; 2000]
  = Returned [0; 5; 12; 19]%Z
  /\ Forall2 Qeq
       (spec_deaths 0.01 rateB 1 [0; 0; 0; 0] [0; 500; 1250; 2000] 0 0)
       [0; 5; 12.5; 20]
  /\ ~ inject_Z 12 == inject_Z 5 + 0.01 * (1250 - 500).
Proof.
  split; [| split].
  - vm_compute. reflexivity.
  - cbn [spec_deaths Qle_bool inject_Z Qnum Qden Z.mul Z.leb Z.compare
         Pos.mul Pos.compare Pos.compare_cont].
    repeat constructor; vm_compute; reflexivity.
  - vm_compute. discriminate.
Qed.

(** C4. On the Recovered trajectory [[0, 5, 12, 20]], with ICU demand below
    capacity throughout and a low fatality rate of [0.01], the recurrence of
    the design document gives [[0, 0.05, 0.12, 0.20]]; the loop of lines
    120-127 returns [[0, 0, 0, 0]], every increment being below one. *)
Theorem fatality_example_stores_zeros (rateB : Q) :
  estimate_deaths 0.01 rateB 1 4 (arange 4) [0; 0; 0; 0] [0; 5; 12; 20]
  = Returned [0; 0; 0; 0]%Z
  /\ Forall2 Qeq
       (spec_deaths 0.01 rateB 1 [0; 0; 0; 0] [0; 5; 12; 20] 0 0)
       [0; 0.05; 0.12; 0.20]
  /\ ~ Forall2 Qeq (map inject_Z [0; 0; 0; 0]%Z) [0; 0.05; 0.12; 0.20].
Proof.
  split; [| split].
  - vm_compute. reflexivity.
  - cbn [spec_deaths Qle_bool inject_Z Qnum Qden Z.mul Z.leb Z.compare
         Pos.mul Pos.compare Pos.compare_cont].
    repeat constructor; vm_compute; reflexivity.
  - intros H. inversion H as [| ? ? ? ? _ H1]; subst.
    inversion H1 as [| ? ? ? ? Hq _]; subst.
    vm_compute in Hq. discriminate.
Qed.

(** ** More on the death estimate *)

(** With non-negative rates, on a Recovered series that starts at or
    above zero and never goes down, no value of a returned estimate is
    negative. *)
Theorem deaths_never_negative
        (rateA rateB : Q) (intensive_units daysTotal : Z) (X : list Z)
        (U R : list Q) (D : list Z) :
  0 <= rateA -> 0 <= rateB ->
  length X = Z.to_nat daysTotal ->
  length U = length X ->
  length R = length X ->
  non_decreasing R ->
  (forall r : Q, R !! 0%nat = Some r -> 0 <= r) ->
  estimate_deaths rateA rateB intensive_units daysTotal X U R = Returned D ->
  forall (t : nat) (d : Z), D !! t = Some d -> (0 <= d)%Z.
Proof.
  intros HA HB HX HU HR Hmono H0 HD t d Hd.
  destruct (estimate_deaths_Returned _ _ _ _ _ _ _ _ HX HU HR HD) as [-> _].
  pose proof (stored_deaths_non_negative rateA rateB intensive_units HA HB
                U R 0 0%Z ltac:(lia)
                (non_decreasing_from 0 R Hmono H0)) as Hall.
  rewrite Forall_forall in Hall. apply Hall.
  apply list_elem_of_lookup. exists t. exact Hd.
Qed.

Lemma deaths_never_negative_witness :
  estimate_deaths 0.01 0.03 10 4 (arange 4) [1; 12; 9; 3] [0; 500; 1250; 2000]
  = Returned [0; 15; 22; 29]%Z
  /\ forall (t : nat) (d : Z), [0; 15; 22; 29]%Z !! t = Some d -> (0 <= d)%Z.
Proof.
  split; [vm_compute; reflexivity |].
  apply (deaths_never_negative 0.01 0.03 10 4 (arange 4) [1; 12; 9; 3]
                               [0; 500; 1250; 2000] [0; 15; 22; 29]%Z).
  - unfold Qle; simpl; lia.
  - unfold Qle; simpl; lia.
  - reflexivity.
  - reflexivity.
  - reflexivity.
  - exact sample_R_non_decreasing.
  - exact sample_R_starts_at_zero.
  - vm_compute. reflexivity.
Defined.

(** With [0 <= rateA <= rateB], on a Recovered series that starts at or
    above zero and never goes down: when the loop returns an estimate at
    one ICU capacity, it returns one at every larger capacity too, and that
    one is not higher on any day. *)
Theorem more_capacity_fewer_deaths
        (rateA rateB : Q) (units units' daysTotal : Z) (X : list Z)
        (U R : list Q) (D : list Z) :
  0 <= rateA -> rateA <= rateB -> (units <= units')%Z ->
  length X = Z.to_nat daysTotal ->
  length U = length X ->
  length R = length X ->
  non_decreasing R ->
  (forall r : Q, R !! 0%nat = Some r -> 0 <= r) ->
  estimate_deaths rateA rateB units daysTotal X U R = Returned D ->
  exists D' : list Z,
    estimate_deaths rateA rateB units' daysTotal X U R = Returned D'
    /\ length D' = length D
    /\ forall (t : nat) (d d' : Z),
        D !! t = Some d -> D' !! t = Some d' -> (d' <= d)%Z.
Proof.
  intros HA HAB Hunits HX HU HR Hmono H0 HD.
  assert (HB : 0 <= rateB) by (eapply Qle_trans; eassumption).
  destruct (estimate_deaths_Returned _ _ _ _ _ _ _ _ HX HU HR HD) as [-> Hfit].
  assert (Hfrom : non_decreasing (0 :: R)) by (apply non_decreasing_from; assumption).
  assert (Hle : forall (t : nat) (d d' : Z),
             stored_deaths rateA rateB units U R 0 0%Z !! t = Some d ->
             stored_deaths rateA rateB units' U R 0 0%Z !! t = Some d' ->
             (d' <= d)%Z).
  { apply (stored_deaths_capacity rateA rateB units units' HAB Hunits);
      [lia | exact Hfrom]. }
  assert (Hlen : length (stored_deaths rateA rateB units' U R 0 0%Z)
                 = length (stored_deaths rateA rateB units U R 0 0%Z)).
  { rewrite !stored_deaths_length by lia. reflexivity. }
  exists (stored_deaths rateA rateB units' U R 0 0%Z).
  split; [| split; [exact Hlen | exact Hle]].
  apply estimate_deaths_stored; try assumption.
  pose proof (stored_deaths_non_negative rateA rateB units' HA HB
                U R 0 0%Z ltac:(lia) Hfrom) as Hpos.
  rewrite Forall_forall in Hpos, Hfit. rewrite Forall_forall.
  intros d' Hin.
  apply list_elem_of_lookup in Hin as [t Ht].
  assert (Hlt : (t < length (stored_deaths rateA rateB units U R 0 0%Z))%nat).
  { rewrite <- Hlen. eapply lookup_lt_Some. exact Ht. }
  destruct (lookup_lt_is_Some_2 _ _ Hlt) as [d Hd].
  pose proof (Hle t d d' Hd Ht) as Hdd.
  assert (Hd64 : in_int64 d)
    by (apply Hfit, list_elem_of_lookup; exists t; exact Hd).
  assert (Hd0 : (0 <= d')%Z)
    by (apply Hpos, list_elem_of_lookup; exists t; exact Ht).
  destruct Hd64 as [_ Hhi]. split; [unfold int64_min; lia | lia].
Qed.

Lemma more_capacity_fewer_deaths_witness :
  exists D' : list Z,
    estimate_deaths 0.01 0.03 10 4 (arange 4) [1; 12; 9; 3]
                    [0; 500; 1250; 2000] = Returned D'
    /\ length D' = length [0; 15; 37; 44]%Z
    /\ forall (t : nat) (d d' : Z),
        [0; 15; 37; 44]%Z !! t = Some d -> D' !! t = Some d' -> (d' <= d)%Z.
Proof.
  apply (more_capacity_fewer_deaths 0.01 0.03 5 10 4 (arange 4) [1; 12; 9; 3]
                                    [0; 500; 1250; 2000] [0; 15; 37; 44]%Z).
  - unfold Qle; simpl; lia.
  - unfold Qle; simpl; lia.
  - lia.
  - reflexivity.
  - reflexivity.
  - reflexivity.
  - exact sample_R_non_decreasing.
  - exact sample_R_starts_at_zero.
  - vm_compute. reflexivity.
Defined.

(** With non-negative rates, on a Recovered series that starts at or above
    zero and never goes down, a returned estimate is never above the
    recurrence computed without conversion, and on day [t] it is behind it
    by less than [t + 1]: the integer array costs less than one death per
    day gone by. *)
Theorem deaths_behind_unrounded
        (rateA rateB : Q) (intensive_units daysTotal : Z) (X : list Z)
        (U R : list Q) (D : list Z) :
  0 <= rateA -> 0 <= rateB ->
  length X = Z.to_nat daysTotal ->
  length U = length X ->
  length R = length X ->
  non_decreasing R ->
  (forall r : Q, R !! 0%nat = Some r -> 0 <= r) ->
  estimate_deaths rateA rateB intensive_units daysTotal X U R = Returned D ->
  forall (t : nat) (d : Z) (e : Q),
    D !! t = Some d ->
    spec_deaths rateA rateB intensive_units U R 0 0 !! t = Some e ->
    inject_Z d <= e /\ e < inject_Z d + inject_Z (Z.of_nat t + 1).
Proof.
  intros HA HB HX HU HR Hmono H0 HD t d e Hd He.
  destruct (estimate_deaths_Returned _ _ _ _ _ _ _ _ HX HU HR HD) as [-> _].
  apply (stored_deaths_behind rateA rateB intensive_units HA HB
           U R 0 0%Z 0 0%Z); try assumption.
  - lia.
  - apply Qle_refl.
  - apply Qle_refl.
  - apply non_decreasing_from; assumption.
Qed.

Lemma deaths_behind_unrounded_witness :
  estimate_deaths 0.01 0.03 10 4 (arange 4) [1; 12; 9; 3] [0; 500; 1250; 2000]
  = Returned [0; 15; 22; 29]%Z
  /\ forall (t : nat) (d : Z) (e : Q),
      [0; 15; 22; 29]%Z !! t = Some d ->
      spec_deaths 0.01 0.03 10 [1; 12; 9; 3] [0; 500; 1250; 2000] 0 0 !! t
      = Some e ->
      inject_Z d <= e /\ e < inject_Z d + inject_Z (Z.of_nat t + 1).
Proof.
  split; [vm_compute; reflexivity |].
  apply (deaths_behind_unrounded 0.01 0.03 10 4 (arange 4) [1; 12; 9; 3]
                                 [0; 500; 1250; 2000] [0; 15; 22; 29]%Z).
  - unfold Qle; simpl; lia.
  - unfold Qle; simpl; lia.
  - reflexivity.
  - reflexivity.
  - reflexivity.
  - exact sample_R_non_decreasing.
  - exact sample_R_starts_at_zero.
  - vm_compute. reflexivity.
Defined.

(** The estimate of a day reads nothing of the days after it: when the
    loop run on the whole horizon returns, the loop run on the first [k]
    days alone returns its first [k] entries. *)
Theorem death_estimate_is_causal
        (rateA rateB : Q) (intensive_units daysTotal : Z) (X : list Z)
        (U R : list Q) (k : nat) (D : list Z) :
  length X = Z.to_nat daysTotal ->
  length U = length X ->
  length R = length X ->
  (k <= Z.to_nat daysTotal)%nat ->
  estimate_deaths rateA rateB intensive_units daysTotal X U R = Returned D ->
  estimate_deaths rateA rateB intensive_units (Z.of_nat k)
                  (take k X) (take k U) (take k R)
  = Returned (take k D).
Proof.
  intros HX HU HR Hk HD.
  destruct (estimate_deaths_Returned _ _ _ _ _ _ _ _ HX HU HR HD) as [-> Hfit].
  rewrite estimate_deaths_stored.
  - rewrite stored_deaths_take. reflexivity.
  - rewrite length_take, Nat2Z.id. lia.
  - rewrite !length_take. lia.
  - rewrite !length_take. lia.
  - rewrite stored_deaths_take. apply Forall_take, Hfit.
Qed.

Lemma death_estimate_is_causal_witness :
  estimate_deaths 0.01 0.03 10 (Z.of_nat 2)
                  (take 2 (arange 4)) (take 2 [1; 12; 9; 3])
                  (take 2 [0; 500; 1250; 2000])
  = Returned (take 2 [0; 15; 22; 29]%Z).
Proof.
  apply (death_estimate_is_causal 0.01 0.03 10 4 (arange 4) [1; 12; 9; 3]
                                  [0; 500; 1250; 2000] 2 [0; 15; 22; 29]%Z).
  - reflexivity.
  - reflexivity.
  - reflexivity.
  - simpl. lia.
  - vm_compute. reflexivity.
Defined.

(** While the ICU demand stays within the capacity on every day, the
    higher fatality rate is never read: what the loop returns with one
    value of it, it returns with any other. *)
Theorem within_capacity_only_low_rate
        (rateA rateB rateB' : Q) (intensive_units daysTotal : Z) (X : list Z)
        (U R : list Q) (D : list Z) :
  length X = Z.to_nat daysTotal ->
  length U = length X ->
  length R = length X ->
  Forall (fun u => u <= inject_Z intensive_units) U ->
  estimate_deaths rateA rateB intensive_units daysTotal X U R = Returned D ->
  estimate_deaths rateA rateB' intensive_units daysTotal X U R = Returned D.
Proof.
  intros HX HU HR Hcap HD.
  destruct (estimate_deaths_Returned _ _ _ _ _ _ _ _ HX HU HR HD) as [-> Hfit].
  rewrite (stored_deaths_within_capacity rateA rateB rateB') in Hfit |- * by exact Hcap.
  apply estimate_deaths_stored; assumption.
Qed.

Lemma within_capacity_only_low_rate_witness :
  estimate_deaths 0.01 0.5 20 4 (arange 4) [1; 12; 9; 3]
                  [0; 500; 1250; 2000] = Returned [0; 5; 12; 19]%Z.
Proof.
  apply (within_capacity_only_low_rate 0.01 0.03 0.5 20 4 (arange 4)
                                       [1; 12; 9; 3] [0; 500; 1250; 2000]
                                       [0; 5; 12; 19]%Z).
  - reflexivity.
  - reflexivity.
  - reflexivity.
  - repeat constructor; unfold Qle; simpl; lia.
  - vm_compute. reflexivity.
Defined.

(** ** The returned table *)

Lemma DataFrame_same_length (days : list Z) (columns : list (observable * list Q)) :
  Forall (fun c => length (snd c) = length days) columns ->
  DataFrame days columns = Returned {| days := days; columns := columns |}.
Proof.
  intros H. unfold DataFrame.
  replace (forallb _ columns) with true; [reflexivity |].
  symmetry. apply forallb_forall. intros c Hc.
  rewrite Forall_forall in H. apply Nat.eqb_eq, H, list_elem_of_In, Hc.
Qed.

(** The [(type, date)] pairs of a melted table: each value column in turn,
    against every date. *)
Lemma melt_keys (date : list Z) (value_vars : list (observable * list Z)) :
  Forall (fun c => length (snd c) = length date) value_vars ->
  map (fun r => (type r, Model.date r)) (melt date value_vars)
  = flat_map (fun v => map (fun d => (v, d)) date) (map fst value_vars).
Proof.
  unfold melt. induction value_vars as [| [v c] cols IH]; intros H;
    [reflexivity |].
  inversion H as [| ? ? Hc Hcols]; subst. cbn [flat_map map fst].
  rewrite map_app, (IH Hcols). f_equal.
  cbn [snd] in Hc. clear -Hc. revert c Hc.
  induction date as [| d date IHd]; intros [| n c] Hc; try discriminate;
    [reflexivity |].
  cbn. f_equal. apply IHd. simpl in Hc. lia.
Qed.

(** ** The [date] column *)

Lemma date_add_in_calendar (d x : Z) :
  (date_min <= d + x <= date_max)%Z -> date_add d x = Returned (d + x)%Z.
Proof.
  intros [Hlo Hhi]. unfold date_add. cbv zeta.
  apply Z.leb_le in Hlo. apply Z.leb_le in Hhi. rewrite Hlo, Hhi. reflexivity.
Qed.

Lemma date_add_past_calendar (d x : Z) :
  (date_max < d + x)%Z -> date_add d x = Raised OverflowError.
Proof.
  intros H. unfold date_add. cbv zeta.
  apply Z.leb_gt in H. rewrite H, andb_false_r. reflexivity.
Qed.

Lemma Series_apply_date_add (d : Z) (l : list Z) :
  Forall (fun x => (date_min <= d + x <= date_max)%Z) l ->
  Series_apply (date_add d) l = Returned (map (fun x => (d + x)%Z) l).
Proof.
  induction l as [| x l IH]; intros H; [reflexivity |].
  inversion H as [| ? ? Hx Hl]; subst.
  cbn [Series_apply map]. rewrite (date_add_in_calendar d x Hx). cbn [bind].
  rewrite (IH Hl). reflexivity.
Qed.

Lemma Series_apply_date_add_Returned (d : Z) (l ds : list Z) :
  Series_apply (date_add d) l = Returned ds ->
  ds = map (fun x => (d + x)%Z) l.
Proof.
  revert ds. induction l as [| x l IH]; intros ds H.
  - injection H as <-. reflexivity.
  - cbn [Series_apply] in H. unfold date_add at 1 in H. cbv zeta in H.
    destruct ((date_min <=? d + x) && (d + x <=? date_max))%Z;
      [| discriminate H].
    cbn [bind] in H.
    destruct (Series_apply (date_add d) l) as [ds' | e]; [| discriminate H].
    cbn [bind] in H. injection H as <-.
    cbn [map]. f_equal. apply IH. reflexivity.
Qed.

(** The [date] column raises nothing but [OverflowError], and it raises
    as soon as one of its dates is past the calendar. *)
Lemma Series_apply_date_add_Raised (d : Z) (l : list Z) (e : exception) :
  Series_apply (date_add d) l = Raised e -> e = OverflowError.
Proof.
  induction l as [| x l IH]; intros H; [discriminate H |].
  cbn [Series_apply] in H. unfold date_add at 1 in H. cbv zeta in H.
  destruct ((date_min <=? d + x) && (d + x <=? date_max))%Z; cbn [bind] in H.
  - destruct (Series_apply (date_add d) l) as [ds | e']; cbn [bind] in H;
      [discriminate H |].
    injection H as <-. apply IH. reflexivity.
  - injection H as <-. reflexivity.
Qed.

Lemma Series_apply_date_add_past (d : Z) (l : list Z) (x : Z) :
  In x l -> (date_max < d + x)%Z ->
  Series_apply (date_add d) l = Raised OverflowError.
Proof.
  intros Hin Hx.
  destruct (Series_apply (date_add d) l) as [ds | e] eqn:H.
  - exfalso. revert ds H.
    induction l as [| x0 l IH]; intros ds H; [contradiction Hin |].
    cbn [Series_apply] in H.
    destruct Hin as [-> | Hin].
    + rewrite (date_add_past_calendar d x Hx) in H. discriminate H.
    + destruct (date_add d x0); [| discriminate H]. cbn [bind] in H.
      destruct (Series_apply (date_add d) l) as [ds' | e'];
        [| discriminate H].
      exact (IH Hin ds' eq_refl).
  - f_equal. exact (Series_apply_date_add_Raised d l e H).
Qed.

Lemma arange_last (n : Z) : (0 < n)%Z -> In (n - 1)%Z (arange n).
Proof.
  intros Hn. unfold arange. apply in_map_iff.
  exists (Z.to_nat (n - 1)). split; [lia |]. apply in_seq. lia.
Qed.

Lemma arange_bounds (n x : Z) : In x (arange n) -> (0 <= x <= n - 1)%Z.
Proof.
  unfold arange. intros H. apply in_map_iff in H.
  destruct H as (i & <- & Hi). apply in_seq in Hi. lia.
Qed.

(** Within the calendar, the [date] column is the 365 days from the date
    of first infection on. *)
Lemma date_column (date_of_first_infection : Z) :
  horizon_fits date_of_first_infection ->
  Series_apply (date_add date_of_first_infection) (arange daysTotal)
  = Returned (map (fun x => (date_of_first_infection + x)%Z) (arange daysTotal)).
Proof.
  intros [Hlo Hhi]. apply Series_apply_date_add, Forall_forall.
  intros x Hx. apply list_elem_of_In, arange_bounds in Hx. lia.
Qed.

(** The fatality rates of [run_SEIR] are rates. *)
Lemma rateA_unit : 0 <= infectionFatalityRateA /\ infectionFatalityRateA <= 1.
Proof. split; apply Qle_bool_iff; vm_compute; reflexivity. Qed.

Lemma rateB_unit : 0 <= infectionFatalityRateB /\ infectionFatalityRateB <= 1.
Proof. split; apply Qle_bool_iff; vm_compute; reflexivity. Qed.

Section Run.

Variable odeint : integrator.
Hypothesis odeint_shape : row_per_time odeint.

Variables (population intensive_units : Z).
Variables (date_of_first_infection date_of_lockdown : Z).

Let y_data_var : list state :=
  run_y_data_var odeint population date_of_first_infection date_of_lockdown.

Let D_delayed : list Q :=
  run_D odeint population intensive_units
        date_of_first_infection date_of_lockdown.

Let table : list record :=
  run_table odeint population intensive_units
            date_of_first_infection date_of_lockdown.

Lemma y_data_var_length : length y_data_var = Z.to_nat daysTotal.
Proof.
  unfold y_data_var, run_y_data_var.
  rewrite odeint_shape, length_map. apply arange_length.
Qed.

Lemma icu_demand_length (I : list Q) : length (icu_demand I) = length I.
Proof. unfold icu_demand. rewrite !delay_length. apply length_map. Qed.

Lemma D_delayed_length : length D_delayed = Z.to_nat daysTotal.
Proof.
  unfold D_delayed, run_D. cbv zeta. fold y_data_var.
  rewrite delay_length, length_map, stored_deaths_length.
  - rewrite icu_demand_length. unfold column_I.
    rewrite length_map. apply y_data_var_length.
  - rewrite icu_demand_length. unfold column_I, column_R.
    rewrite !length_map. reflexivity.
Qed.

Lemma columns_same_length (days : list Z) :
  length days = Z.to_nat daysTotal ->
  Forall (fun c : observable * list Q => length (snd c) = length days)
         [(susceptible, column_S y_data_var); (exposed, column_E y_data_var);
          (infectious, column_I y_data_var); (recovered, column_R y_data_var);
          (deaths, D_delayed)].
Proof.
  intros Hdays.
  pose proof y_data_var_length as Hy. pose proof D_delayed_length as HD.
  rewrite Hdays.
  repeat constructor; cbn [snd];
    unfold column_S, column_E, column_I, column_R;
    rewrite ?length_map; assumption.
Qed.

(** The loop of a run, on a Recovered series within the exact integers:
    every store is within the range of an [int64], so it returns. *)
Lemma run_deaths_stored :
  Forall within_exact (column_R y_data_var) ->
  estimate_deaths infectionFatalityRateA infectionFatalityRateB
                  intensive_units daysTotal (arange daysTotal)
                  (icu_demand (column_I y_data_var)) (column_R y_data_var)
  = Returned (stored_deaths infectionFatalityRateA infectionFatalityRateB
                            intensive_units (icu_demand (column_I y_data_var))
                            (column_R y_data_var) 0 0%Z).
Proof.
  intros Hrange.
  assert (HR : length (column_R y_data_var) = Z.to_nat daysTotal)
    by (unfold column_R; rewrite length_map; apply y_data_var_length).
  apply estimate_deaths_stored.
  - apply arange_length.
  - rewrite icu_demand_length, arange_length. unfold column_I.
    rewrite length_map. apply y_data_var_length.
  - rewrite arange_length. exact HR.
  - apply (stored_deaths_fit _ _ _ rateA_unit rateB_unit); [| exact Hrange].
    rewrite HR. vm_compute. lia.
Qed.

(** Its rows: every observable in turn, against every day of the horizon
    counted from the date of first infection. *)
Lemma table_keys :
  map (fun r => (type r, date r)) table
  = flat_map (fun v => map (fun k => (v, (date_of_first_infection + k)%Z))
                           (arange daysTotal))
             [susceptible; exposed; infectious; recovered; deaths].
Proof.
  unfold table, run_table. cbv zeta. fold y_data_var. fold D_delayed.
  rewrite melt_keys.
  - cbn [map fst flat_map]. rewrite !map_map. reflexivity.
  - pose proof (columns_same_length
                  (map (fun x => (date_of_first_infection + x)%Z)
                       (arange daysTotal))) as H.
    rewrite length_map, arange_length in H. specialize (H eq_refl).
    rewrite length_map, arange_length.
    repeat match goal with
           | H : Forall _ (_ :: _) |- _ => inversion H; clear H; subst
           end.
    repeat constructor; cbn [snd] in *; rewrite length_map; assumption.
Qed.

Lemma table_length : length table = (5 * Z.to_nat daysTotal)%nat.
Proof.
  rewrite <- (length_map (fun r => (type r, date r))), table_keys.
  cbn [flat_map]. rewrite !length_app, !length_map, arange_length.
  cbn [length]. lia.
Qed.

(** What a run returns, when it returns, is the melted frame. *)
Lemma run_SEIR_Returned (rows : list record) :
  run_SEIR odeint population intensive_units
           date_of_first_infection date_of_lockdown
  = Returned rows ->
  rows = table.
Proof.
  pose proof (columns_same_length (arange daysTotal) (arange_length daysTotal))
    as Hcols.
  assert (HU : length (icu_demand (column_I y_data_var))
               = length (arange daysTotal)).
  { rewrite icu_demand_length, arange_length. unfold column_I.
    rewrite length_map. apply y_data_var_length. }
  assert (HR : length (column_R y_data_var) = length (arange daysTotal)).
  { rewrite arange_length. unfold column_R.
    rewrite length_map. apply y_data_var_length. }
  pose proof (estimate_deaths_outcome
                infectionFatalityRateA infectionFatalityRateB intensive_units
                (icu_demand (column_I y_data_var)) (column_R y_data_var)
                daysTotal (arange daysTotal) (arange_length daysTotal) HU HR)
    as Hloop.
  clear HU HR.
  unfold table, run_table, D_delayed, run_D, y_data_var, run_y_data_var
    in Hloop, Hcols |- *.
  cbv zeta in Hcols |- *.
  unfold run_SEIR, solve.
  destruct (population =? 0)%Z; [intros H; discriminate H |].
  cbv iota.
  destruct (estimate_deaths _ _ _ _ _ _ _) as [D | e];
    [| intros H; discriminate H].
  destruct Hloop as [_ ->]. cbn [bind].
  rewrite (DataFrame_same_length _ _ Hcols). cbn [bind days columns].
  destruct (Series_apply _ _) as [ds | e] eqn:Hdates;
    [| intros H; discriminate H].
  apply Series_apply_date_add_Returned in Hdates. subst ds.
  cbn [bind]. intros H. injection H as <-. reflexivity.
Qed.

Hypothesis population_not_zero : population <> 0%Z.
Hypothesis dates_fit : horizon_fits date_of_first_infection.
Hypothesis recovered_fits :
  recovered_in_range odeint population date_of_first_infection date_of_lockdown.

(** Such a run raises nothing: the stores of the loop stay within the
    range, the columns of the frame have one length, the dates stay within
    the calendar, and the table is the melted frame. *)
Lemma run_SEIR_table :
  run_SEIR odeint population intensive_units
           date_of_first_infection date_of_lockdown
  = Returned table.
Proof.
  pose proof (run_deaths_stored recovered_fits) as Hloop.
  pose proof (columns_same_length (arange daysTotal) (arange_length daysTotal))
    as Hcols.
  unfold D_delayed, run_D, y_data_var, run_y_data_var in Hloop, Hcols.
  cbv zeta in Hcols.
  unfold run_SEIR, solve.
  apply Z.eqb_neq in population_not_zero. rewrite population_not_zero.
  cbv iota.
  rewrite Hloop. cbn [bind].
  rewrite (DataFrame_same_length _ _ Hcols).
  cbn [bind days columns].
  rewrite (date_column _ dates_fit). reflexivity.
Qed.

End Run.

(** A run whose last date is past the calendar gets as far as line 141,
    and raises there. *)
Lemma run_SEIR_past_calendar
      (odeint : integrator) (population intensive_units : Z)
      (date_of_first_infection date_of_lockdown : Z) :
  row_per_time odeint ->
  population <> 0%Z ->
  recovered_in_range odeint population date_of_first_infection date_of_lockdown ->
  (date_max < date_of_first_infection + (daysTotal - 1))%Z ->
  run_SEIR odeint population intensive_units
           date_of_first_infection date_of_lockdown
  = Raised OverflowError.
Proof.
  intros Hshape Hpop Hrange Hpast.
  pose proof (run_deaths_stored odeint Hshape population intensive_units
                date_of_first_infection date_of_lockdown Hrange) as Hloop.
  pose proof (columns_same_length odeint Hshape population intensive_units
                date_of_first_infection date_of_lockdown
                (arange daysTotal) (arange_length daysTotal)) as Hcols.
  unfold run_D, run_y_data_var in Hloop, Hcols. cbv zeta in Hcols.
  unfold run_SEIR, solve.
  apply Z.eqb_neq in Hpop. rewrite Hpop. cbv iota.
  rewrite Hloop. cbn [bind].
  rewrite (DataFrame_same_length _ _ Hcols). cbn [bind days columns].
  rewrite (Series_apply_date_add_past date_of_first_infection
             (arange daysTotal) (daysTotal - 1)%Z);
    [reflexivity | apply arange_last; reflexivity | exact Hpast].
Qed.

(** ** Forward Euler on the daily grid *)

Lemma euler_shape : row_per_time euler.
Proof.
  intros func y0 t. revert y0.
  induction t as [| x t IH]; intros y0; [reflexivity |].
  cbn [euler length]. f_equal. apply IH.
Qed.

Lemma unit_scale (a x : Q) :
  0 <= a /\ a <= 1 -> 0 <= x -> 0 <= a * x /\ a * x <= x.
Proof. intros [Ha Ha'] Hx. split; Lqa.nra. Qed.

(** One step of at most a day keeps a state of [N] people one: with
    coefficients that are rates, no compartment loses more than it holds. *)
Lemma model_step_in_simplex
      (N : Z) (b0 : Q) (days0 : Z) (b1 g sg : Q) (h : Q) (Y : state) (x : Q) :
  (0 < N)%Z ->
  0 <= b0 /\ b0 <= 1 -> 0 <= b1 /\ b1 <= 1 ->
  0 <= g /\ g <= 1 -> 0 <= sg /\ sg <= 1 ->
  0 <= h /\ h <= 1 ->
  in_simplex N Y ->
  in_simplex N (axpy h (model Y x N b0 days0 b1 g sg) Y).
Proof.
  intros HN Hb0 Hb1 [Hg Hg'] [Hsg Hsg'] [Hh Hh'].
  destruct Y as [[[s e] i] r]. intros (Hs & He & Hi & Hr & Hsum).
  unfold model, axpy, in_simplex.
  set (beta := if Qlt_le_dec x (inject_Z days0) then b0 else b1).
  assert (Hbeta : 0 <= beta /\ beta <= 1)
    by (unfold beta; destruct (Qlt_le_dec x (inject_Z days0)); assumption).
  destruct Hbeta as [Hbeta Hbeta'].
  assert (Hn : 0 < inject_Z N)
    by (change 0 with (inject_Z 0); rewrite <- Zlt_Qlt; exact HN).
  assert (Hn0 : ~ inject_Z N == 0)
    by (intros E; rewrite E in Hn; exact (Qlt_irrefl 0 Hn)).
  assert (Hi' : i <= inject_Z N) by Lqa.lra.
  set (q := beta * s * i / inject_Z N).
  assert (Hq : 0 <= q).
  { unfold q, Qdiv. apply Qmult_le_0_compat.
    - apply Qmult_le_0_compat; [apply Qmult_le_0_compat |]; assumption.
    - apply Qinv_le_0_compat, Qlt_le_weak, Hn. }
  assert (Hq' : q <= s).
  { unfold q. apply Qle_shift_div_r; [exact Hn |].
    assert (H1 : beta * s <= s) by Lqa.nra.
    assert (H2 : 0 <= beta * s) by (apply Qmult_le_0_compat; assumption).
    apply Qle_trans with (y := s * i).
    - apply Qmult_le_compat_r; assumption.
    - rewrite !(Qmult_comm s). apply Qmult_le_compat_r; assumption. }
  assert (HdS : - beta * s * i / inject_Z N == - q)
    by (unfold q; field; exact Hn0).
  rewrite HdS. clearbody q. clear HdS.
  assert (Hhq : 0 <= h * q /\ h * q <= q) by (apply unit_scale; tauto).
  destruct (unit_scale sg e (conj Hsg Hsg') He) as [Hse Hse'].
  destruct (unit_scale g i (conj Hg Hg') Hi) as [Hgi Hgi'].
  destruct (unit_scale h (sg * e) (conj Hh Hh') Hse) as [Hhe Hhe'].
  destruct (unit_scale h (g * i) (conj Hh Hh') Hgi) as [Hhi Hhi'].
  repeat split.
  - Lqa.lra.
  - Lqa.lra.
  - Lqa.lra.
  - Lqa.lra.
  - rewrite <- Hsum. ring.
Qed.

(** On the daily grid forward Euler steps by one day, and by nothing at
    the last entry. *)
Lemma euler_grid_in_simplex (func : state -> Q -> state) (N : Z) :
  (forall (Y : state) (x h : Q),
      0 <= h /\ h <= 1 -> in_simplex N Y -> in_simplex N (axpy h (func Y x) Y)) ->
  forall (n a : nat) (y : state),
    in_simplex N y ->
    Forall (in_simplex N)
           (euler func y (map inject_Z (map Z.of_nat (seq a n)))).
Proof.
  intros Hstep. induction n as [| n IH]; intros a y Hy; [constructor |].
  cbn [seq map euler]. constructor; [exact Hy |].
  apply IH, Hstep; [| exact Hy].
  destruct n as [| n]; cbn [seq map hd].
  - split; unfold Qle; simpl; lia.
  - split; unfold Qle; simpl; lia.
Qed.

Lemma beta0_unit : 0 <= beta0 /\ beta0 <= 1.
Proof. split; apply Qle_bool_iff; vm_compute; reflexivity. Qed.

Lemma beta1_unit : 0 <= beta1 /\ beta1 <= 1.
Proof. split; apply Qle_bool_iff; vm_compute; reflexivity. Qed.

Lemma gamma_unit : 0 <= gamma /\ gamma <= 1.
Proof. split; apply Qle_bool_iff; vm_compute; reflexivity. Qed.

Lemma sigma_unit : 0 <= sigma /\ sigma <= 1.
Proof. split; apply Qle_bool_iff; vm_compute; reflexivity. Qed.

(** Every row of a forward Euler run of [run_SEIR] is a state of
    [population] people. *)
Lemma euler_run_in_simplex
      (population : Z) (date_of_first_infection date_of_lockdown : Z) :
  (1 <= population)%Z ->
  Forall (in_simplex population)
         (run_y_data_var euler population date_of_first_infection
                         date_of_lockdown).
Proof.
  intros Hpop. unfold run_y_data_var, arange.
  apply euler_grid_in_simplex.
  - intros Y x h Hh HY.
    apply model_step_in_simplex; try assumption;
      [lia | exact beta0_unit | exact beta1_unit | exact gamma_unit
       | exact sigma_unit].
  - unfold in_simplex, E0.
    assert (H0 : 0 <= inject_Z (population - 1))
      by (change 0 with (inject_Z 0); rewrite <- Zle_Qle; lia).
    repeat split; try exact H0; try (unfold Qle; simpl; lia).
    rewrite !Qplus_0_r, <- inject_Z_plus.
    replace (population - 1 + 1)%Z with population by lia. reflexivity.
Qed.

(** So its Recovered series lies between [0] and the population. *)
Lemma euler_recovered_in_range
      (population : Z) (date_of_first_infection date_of_lockdown : Z) :
  (1 <= population <= 2 ^ 53)%Z ->
  recovered_in_range euler population date_of_first_infection date_of_lockdown.
Proof.
  intros [Hlo Hhi]. unfold recovered_in_range, column_R.
  apply Forall_map.
  eapply Forall_impl;
    [exact (euler_run_in_simplex population date_of_first_infection
              date_of_lockdown Hlo) |].
  intros [[[s e] i] r] (Hs & He & Hi & Hr & Hsum). cbn beta iota.
  assert (Hpop : inject_Z population <= inject_Z (2 ^ 53))
    by (rewrite <- Zle_Qle; exact Hhi).
  assert (Hb : 0 <= inject_Z (2 ^ 53)) by (unfold Qle; simpl; lia).
  unfold within_exact, exact_bound. split; Lqa.lra.
Qed.

Lemma euler_forward_only : forward_only euler.
Proof.
  intros func func' y0 t Ht Hagree. revert y0.
  induction t as [| x t IH]; intros y0; [reflexivity |].
  inversion Ht as [| ? ? Hx Ht']; subst.
  cbn [euler]. rewrite (Hagree y0 x Hx). f_equal. apply IH, Ht'.
Qed.

Lemma euler_starts_at_y0 : starts_at_y0 euler.
Proof. intros func y0 x t. eexists. reflexivity. Qed.

(** A first infection on 2020-03-01 (ordinal 737485): the year that
    follows lies within the calendar. *)
Lemma sample_horizon_fits : horizon_fits 737485.
Proof. unfold horizon_fits, date_min, date_max, daysTotal. lia. Qed.

(** ** More on the returned table *)

Lemma filter_zip_type (f : observable -> bool) (v : observable) :
  forall (dates c : list Z),
    List.filter (fun r => f (type r))
                (zip_with (fun d n => {| date := d; type := v; count := n |})
                          dates c)
    = if f v
      then zip_with (fun d n => {| date := d; type := v; count := n |}) dates c
      else [].
Proof.
  induction dates as [| d dates IH]; intros [| n c]; cbn [zip_with List.filter type];
    try (destruct (f v); reflexivity).
  rewrite IH. destruct (f v); reflexivity.
Qed.

Lemma zip_with_record_length (v : observable) (dates c : list Z) :
  length c = length dates ->
  length (zip_with (fun d n => {| date := d; type := v; count := n |}) dates c)
  = length dates.
Proof. intros H. rewrite length_zip_with. lia. Qed.

(** Row [i] of the block of column [j] in a melted table. *)
Lemma melt_lookup (dates : list Z) :
  forall (value_vars : list (observable * list Z)) (j i : nat)
         (v : observable) (c : list Z),
    Forall (fun c => length (snd c) = length dates) value_vars ->
    value_vars !! j = Some (v, c) ->
    (i < length dates)%nat ->
    melt dates value_vars !! (j * length dates + i)%nat
    = zip_with (fun d n => {| date := d; type := v; count := n |}) dates c !! i.
Proof.
  unfold melt.
  induction value_vars as [| [v0 c0] cols IH]; intros j i v c Hlen Hj Hi;
    [discriminate |].
  inversion Hlen as [| ? ? Hc0 Hcols]; subst. cbn [snd] in Hc0.
  cbn [flat_map]. destruct j as [| j].
  - cbn in Hj. injection Hj as -> ->.
    rewrite lookup_app_l by (rewrite zip_with_record_length; assumption).
    reflexivity.
  - cbn in Hj.
    rewrite lookup_app_r by (rewrite zip_with_record_length by assumption;
                             simpl; lia).
    rewrite zip_with_record_length by assumption.
    replace (S j * length dates + i - length dates)%nat
      with (j * length dates + i)%nat by (simpl; lia).
    exact (IH j i v c Hcols Hj Hi).
Qed.

Lemma melt_shift (k : Z) (dates : list Z) :
  forall value_vars : list (observable * list Z),
    melt (map (fun d => (d + k)%Z) dates) value_vars
    = map (fun r => {| date := (date r + k)%Z; type := type r; count := count r |})
          (melt dates value_vars).
Proof.
  unfold melt. induction value_vars as [| [v c] cols IH]; [reflexivity |].
  cbn [flat_map]. rewrite map_app, IH. f_equal.
  clear IH. revert c. induction dates as [| d dates IHd]; intros [| n c];
    try reflexivity.
  cbn [map zip_with]. f_equal. apply IHd.
Qed.

Lemma grid_non_negative (n : Z) :
  Forall (fun x => 0 <= x) (map inject_Z (arange n)).
Proof.
  unfold arange. rewrite map_map. apply Forall_forall. intros x Hx.
  apply list_elem_of_In, in_map_iff in Hx. destruct Hx as (i & <- & _).
  change 0 with (inject_Z 0). rewrite <- Zle_Qle. lia.
Qed.

(** At a time that is not before either of two switch days, neither the
    switch day nor [beta0] is read. *)
Lemma model_after_both_switches
      (Y : state) (x : Q) (N : Z) (b0 b0' : Q) (days0 days0' : Z)
      (beta1 gamma sigma : Q) :
  inject_Z days0 <= x -> inject_Z days0' <= x ->
  model Y x N b0 days0 beta1 gamma sigma
  = model Y x N b0' days0' beta1 gamma sigma.
Proof.
  intros H H'. destruct Y as [[[s e] i] r]. unfold model.
  destruct (Qlt_le_dec x (inject_Z days0)) as [Hlt | _];
    [exfalso; exact (Qlt_not_le _ _ Hlt H) |].
  destruct (Qlt_le_dec x (inject_Z days0')) as [Hlt | _];
    [exfalso; exact (Qlt_not_le _ _ Hlt H') |].
  reflexivity.
Qed.

Section RunMore.

Variable odeint : integrator.
Hypothesis odeint_shape : row_per_time odeint.

Variables (population : Z) (date_of_first_infection date_of_lockdown : Z).

(** The four compartment blocks of the table, which the ICU capacity does
    not enter. *)
Let compartments : list record :=
  let y := run_y_data_var odeint population date_of_first_infection
                          date_of_lockdown in
  melt (map (fun x => (date_of_first_infection + x)%Z) (arange daysTotal))
       [(susceptible, map round (column_S y));
        (exposed, map round (column_E y));
        (infectious, map round (column_I y));
        (recovered, map round (column_R y))].

Lemma run_table_split (intensive_units : Z) :
  run_table odeint population intensive_units
            date_of_first_infection date_of_lockdown
  = compartments
    ++ zip_with (fun d n => {| date := d; type := deaths; count := n |})
         (map (fun x => (date_of_first_infection + x)%Z) (arange daysTotal))
         (map round (run_D odeint population intensive_units
                           date_of_first_infection date_of_lockdown)).
Proof.
  unfold run_table, compartments, melt. cbv zeta. cbn [flat_map].
  rewrite !app_nil_r, <- !app_assoc. reflexivity.
Qed.

Lemma compartments_kept :
  List.filter (fun r => negb (is_deaths (type r))) compartments = compartments.
Proof.
  unfold compartments, melt. cbv zeta. cbn [flat_map].
  rewrite !List.filter_app, !(filter_zip_type (fun v => negb (is_deaths v))).
  reflexivity.
Qed.

Lemma compartments_length :
  length compartments = (4 * Z.to_nat daysTotal)%nat.
Proof.
  pose proof (y_data_var_length odeint odeint_shape population
                date_of_first_infection date_of_lockdown) as Hy.
  unfold compartments, melt. cbv zeta. cbn [flat_map].
  rewrite !length_app, !zip_with_record_length;
    rewrite ?length_map, ?arange_length;
    unfold column_S, column_E, column_I, column_R; rewrite ?length_map;
    try exact Hy.
  cbn [length]. lia.
Qed.

Lemma run_table_without_deaths (intensive_units : Z) :
  List.filter (fun r => negb (is_deaths (type r)))
              (run_table odeint population intensive_units
                         date_of_first_infection date_of_lockdown)
  = compartments.
Proof.
  rewrite run_table_split, List.filter_app, compartments_kept.
  rewrite (filter_zip_type (fun v => negb (is_deaths v))). apply app_nil_r.
Qed.

End RunMore.

(** ** The fixed horizon *)

(** C10. Whatever the population, the ICU capacity and the two dates, a
    run that returns has integrated from [(population - 1, 1, 0, 0)] over
    the days [0 .. 364] with the coefficients [3.0 * gamma] and
    [1.1 * gamma], and returns one row per observable and per date, over
    the 365 consecutive dates that start at the date of first infection,
    the observables in the order susceptible, exposed, infectious,
    recovered, deaths.  A run returns when the population is not zero, the
    365 dates lie within the calendar and the Recovered series stays within
    the integers that a float holds exactly. *)
Theorem run_SEIR_fixed_horizon
        (odeint : integrator)
        (population intensive_units : Z)
        (date_of_first_infection date_of_lockdown : Z) :
  row_per_time odeint ->
  let y :=
    odeint (fun Y x => model Y x population (3.0 * gamma)
                         (date_of_lockdown - date_of_first_infection)%Z
                         (1.1 * gamma) gamma sigma)
           (inject_Z (population - 1), inject_Z 1, 0, 0)
           (map inject_Z (arange 365)) in
  (forall rows : list record,
      run_SEIR odeint population intensive_units
               date_of_first_infection date_of_lockdown = Returned rows ->
      exists D : list Q,
        rows
        = melt (map (fun x => (date_of_first_infection + x)%Z) (arange 365))
               [(susceptible, map round (column_S y));
                (exposed, map round (column_E y));
                (infectious, map round (column_I y));
                (recovered, map round (column_R y));
                (deaths, map round D)]
        /\ map (fun r => (type r, date r)) rows
           = flat_map (fun v => map (fun k => (v, (date_of_first_infection + k)%Z))
                                    (arange 365))
                      [susceptible; exposed; infectious; recovered; deaths]
        /\ length rows = 1825%nat)
  /\ (population <> 0%Z ->
      (1 <= date_of_first_infection)%Z ->
      (date_of_first_infection + 364 <= 3652059)%Z ->
      Forall within_exact (column_R y) ->
      returns (run_SEIR odeint population intensive_units
                        date_of_first_infection date_of_lockdown)).
Proof.
  intros Hshape. cbv zeta. split.
  - intros rows Hrows.
    apply (run_SEIR_Returned odeint Hshape) in Hrows. subst rows.
    eexists. split; [| split].
    + reflexivity.
    + exact (table_keys odeint Hshape population intensive_units
               date_of_first_infection date_of_lockdown).
    + exact (table_length odeint Hshape population intensive_units
               date_of_first_infection date_of_lockdown).
  - intros Hpop Hlo Hhi Hrange. eexists.
    apply (run_SEIR_table odeint Hshape); [exact Hpop | | exact Hrange].
    split; [exact Hlo | exact Hhi].
Qed.

Lemma run_SEIR_fixed_horizon_witness :
  let y :=
    euler (fun Y x => model Y x 1000000 (3.0 * gamma) (737509 - 737485)%Z
                        (1.1 * gamma) gamma sigma)
          (inject_Z (1000000 - 1), inject_Z 1, 0, 0)
          (map inject_Z (arange 365)) in
  (forall rows : list record,
      run_SEIR euler 1000000 28000 737485 737509 = Returned rows ->
      exists D : list Q,
        rows
        = melt (map (fun x => (737485 + x)%Z) (arange 365))
               [(susceptible, map round (column_S y));
                (exposed, map round (column_E y));
                (infectious, map round (column_I y));
                (recovered, map round (column_R y));
                (deaths, map round D)]
        /\ map (fun r => (type r, date r)) rows
           = flat_map (fun v => map (fun k => (v, (737485 + k)%Z)) (arange 365))
                      [susceptible; exposed; infectious; recovered; deaths]
        /\ length rows = 1825%nat)
  /\ returns (run_SEIR euler 1000000 28000 737485 737509).
Proof.
  destruct (run_SEIR_fixed_horizon euler 1000000 28000 737485 737509
              euler_shape) as [Hrows Hreturns].
  split; [exact Hrows |].
  apply Hreturns.
  - lia.
  - lia.
  - lia.
  - apply (euler_recovered_in_range 1000000 737485 737509). lia.
Defined.

(** ** The switch of the transmission coefficient *)




(** ** Arguments that the design document rules out *)

(** C7, as the design document states it: a run with a non-positive
    population or a non-positive ICU capacity raises.  It does not: with
    1000 people and no ICU bed the run returns its table. *)
Lemma non_positive_capacity_is_accepted :
  ~ (forall (odeint : integrator)
            (population intensive_units : Z)
            (date_of_first_infection date_of_lockdown : Z),
        row_per_time odeint ->
        (population <= 0 \/ intensive_units <= 0)%Z ->
        exists e : exception,
          run_SEIR odeint population intensive_units
                   date_of_first_infection date_of_lockdown = Raised e).
Proof.
  intros H.
  destruct (H euler 1000 0 737485 737509 euler_shape ltac:(right; lia))%Z
    as [e He].
  rewrite (run_SEIR_table euler euler_shape) in He.
  - discriminate He.
  - lia.
  - exact sample_horizon_fits.
  - apply euler_recovered_in_range. lia.
Qed.

(** C7, as the code has it: [run_SEIR] checks neither argument.  With a
    population other than zero, be it negative, and with any ICU capacity,
    be it zero or negative, a run whose 365 dates lie within the calendar
    and whose Recovered series stays within the integers that a float holds
    exactly raises nothing: it has the integrator run from
    [(population - 1, 1, 0, 0)] over the days [0 .. 364], the loop of lines
    120-127 returns its estimate, and the run returns the whole table of
    [5 * 365] rows made of both.  The ICU capacity is read by that loop
    alone: with any other capacity the run returns the same rows for the
    four compartments. *)
Theorem run_SEIR_checks_no_argument
        (odeint : integrator)
        (population intensive_units : Z)
        (date_of_first_infection date_of_lockdown : Z) :
  row_per_time odeint ->
  population <> 0%Z ->
  horizon_fits date_of_first_infection ->
  recovered_in_range odeint population date_of_first_infection date_of_lockdown ->
  (population <= 0 \/ intensive_units <= 0)%Z ->
  let y :=
    odeint (fun Y x => model Y x population beta0
                         (date_of_lockdown - date_of_first_infection)%Z
                         beta1 gamma sigma)
           (inject_Z (population - 1), inject_Z 1, 0, 0)
           (map inject_Z (arange 365)) in
  exists (D : list Z) (rows : list record),
    estimate_deaths infectionFatalityRateA infectionFatalityRateB
                    intensive_units 365 (arange 365)
                    (icu_demand (column_I y)) (column_R y)
    = Returned D
    /\ rows
       = melt (map (fun x => (date_of_first_infection + x)%Z) (arange 365))
              [(susceptible, map round (column_S y));
               (exposed, map round (column_E y));
               (infectious, map round (column_I y));
               (recovered, map round (column_R y));
               (deaths,
                map round
                    (Shared.delay (map inject_Z D)
                       (- timeInfected + days_presymptomatic
                        + symptomToHospitalLag + timeInHospital
                        + communicationLag)))]
    /\ run_SEIR odeint population intensive_units
                date_of_first_infection date_of_lockdown = Returned rows
    /\ length rows = 1825%nat
    /\ forall intensive_units' : Z,
        exists rows' : list record,
          run_SEIR odeint population intensive_units'
                   date_of_first_infection date_of_lockdown = Returned rows'
          /\ List.filter (fun r => negb (is_deaths (type r))) rows'
             = List.filter (fun r => negb (is_deaths (type r))) rows.
Proof.
  intros Hshape Hpop Hfits Hrange _. cbv zeta.
  eexists. eexists.
  split; [exact (run_deaths_stored odeint Hshape population intensive_units
                   date_of_first_infection date_of_lockdown Hrange) |].
  split; [reflexivity |].
  split; [exact (run_SEIR_table odeint Hshape population intensive_units
                   date_of_first_infection date_of_lockdown
                   Hpop Hfits Hrange) |].
  split; [exact (table_length odeint Hshape population intensive_units
                   date_of_first_infection date_of_lockdown) |].
  intros intensive_units'. eexists.
  split; [exact (run_SEIR_table odeint Hshape population intensive_units'
                   date_of_first_infection date_of_lockdown
                   Hpop Hfits Hrange) |].
  exact (eq_trans
           (run_table_without_deaths odeint population
              date_of_first_infection date_of_lockdown intensive_units')
           (eq_sym (run_table_without_deaths odeint population
                      date_of_first_infection date_of_lockdown
                      intensive_units))).
Qed.

Lemma run_SEIR_checks_no_argument_witness :
  let y :=
    euler (fun Y x => model Y x 1000 beta0 (737509 - 737485)%Z
                        beta1 gamma sigma)
          (inject_Z (1000 - 1), inject_Z 1, 0, 0)
          (map inject_Z (arange 365)) in
  exists (D : list Z) (rows : list record),
    estimate_deaths infectionFatalityRateA infectionFatalityRateB
                    0 365 (arange 365)
                    (icu_demand (column_I y)) (column_R y)
    = Returned D
    /\ rows
       = melt (map (fun x => (737485 + x)%Z) (arange 365))
              [(susceptible, map round (column_S y));
               (exposed, map round (column_E y));
               (infectious, map round (column_I y));
               (recovered, map round (column_R y));
               (deaths,
                map round
                    (Shared.delay (map inject_Z D)
                       (- timeInfected + days_presymptomatic
                        + symptomToHospitalLag + timeInHospital
                        + communicationLag)))]
    /\ run_SEIR euler 1000 0 737485 737509 = Returned rows
    /\ length rows = 1825%nat
    /\ forall intensive_units' : Z,
        exists rows' : list record,
          run_SEIR euler 1000 intensive_units' 737485 737509 = Returned rows'
          /\ List.filter (fun r => negb (is_deaths (type r))) rows'
             = List.filter (fun r => negb (is_deaths (type r))) rows.
Proof.
  apply (run_SEIR_checks_no_argument euler 1000 0 737485 737509).
  - exact euler_shape.
  - lia.
  - exact sample_horizon_fits.
  - apply euler_recovered_in_range. lia.
  - right. lia.
Defined.

(** ** More on a run *)

(** The ICU capacity enters the deaths rows only: with a population other
    than zero, the dates within the calendar and the Recovered series within
    the integers that a float holds exactly, two runs that differ in
    nothing but the capacity return the same rows for the susceptible,
    exposed, infectious and recovered, 4 * 365 of them, in the same
    order. *)
Theorem capacity_touches_deaths_only
        (odeint : integrator)
        (population intensive_units intensive_units' : Z)
        (date_of_first_infection date_of_lockdown : Z) :
  row_per_time odeint ->
  population <> 0%Z ->
  horizon_fits date_of_first_infection ->
  recovered_in_range odeint population date_of_first_infection date_of_lockdown ->
  exists rows rows' : list record,
    run_SEIR odeint population intensive_units
             date_of_first_infection date_of_lockdown = Returned rows
    /\ run_SEIR odeint population intensive_units'
                date_of_first_infection date_of_lockdown = Returned rows'
    /\ List.filter (fun r => negb (is_deaths (type r))) rows
       = List.filter (fun r => negb (is_deaths (type r))) rows'
    /\ length (List.filter (fun r => negb (is_deaths (type r))) rows)
       = 1460%nat.
Proof.
  intros Hshape Hpop Hfits Hrange. eexists. eexists.
  split; [apply (run_SEIR_table odeint Hshape); assumption |].
  split; [apply (run_SEIR_table odeint Hshape); assumption |].
  rewrite !run_table_without_deaths.
  split; [reflexivity |].
  rewrite (compartments_length odeint Hshape). reflexivity.
Qed.

Lemma capacity_touches_deaths_only_witness :
  exists rows rows' : list record,
    run_SEIR euler 1000000 28000 737485 737509 = Returned rows
    /\ run_SEIR euler 1000000 500 737485 737509 = Returned rows'
    /\ List.filter (fun r => negb (is_deaths (type r))) rows
       = List.filter (fun r => negb (is_deaths (type r))) rows'
    /\ length (List.filter (fun r => negb (is_deaths (type r))) rows)
       = 1460%nat.
Proof.
  apply (capacity_touches_deaths_only euler 1000000 28000 500 737485 737509).
  - exact euler_shape.
  - lia.
  - exact sample_horizon_fits.
  - apply euler_recovered_in_range. lia.
Defined.

(** A run follows the calendar: with a population other than zero and the
    Recovered series within the integers that a float holds exactly, moving
    both dates by the same number of days, the 365 days of either run
    within the calendar, moves the date of every row by that number and
    changes no type and no count. *)
Theorem run_SEIR_follows_the_calendar
        (odeint : integrator)
        (population intensive_units : Z)
        (date_of_first_infection date_of_lockdown k : Z) :
  row_per_time odeint ->
  population <> 0%Z ->
  horizon_fits date_of_first_infection ->
  horizon_fits (date_of_first_infection + k) ->
  recovered_in_range odeint population date_of_first_infection date_of_lockdown ->
  exists rows : list record,
    run_SEIR odeint population intensive_units
             date_of_first_infection date_of_lockdown = Returned rows
    /\ run_SEIR odeint population intensive_units
                (date_of_first_infection + k) (date_of_lockdown + k)
       = Returned
           (map (fun r => {| date := (date r + k)%Z; type := type r;
                             count := count r |})
                rows).
Proof.
  intros Hshape Hpop Hfits Hfits' Hrange.
  assert (Hdays :
    days_before_lockdown (date_of_first_infection + k) (date_of_lockdown + k)
    = days_before_lockdown date_of_first_infection date_of_lockdown)
    by (unfold days_before_lockdown; lia).
  assert (Hrange' :
    recovered_in_range odeint population (date_of_first_infection + k)
                       (date_of_lockdown + k)).
  { unfold recovered_in_range, run_y_data_var in Hrange |- *.
    rewrite Hdays. exact Hrange. }
  eexists.
  split; [apply (run_SEIR_table odeint Hshape); assumption |].
  rewrite (run_SEIR_table odeint Hshape) by assumption. f_equal.
  unfold run_table, run_D, run_y_data_var. cbv zeta.
  rewrite Hdays.
  rewrite <- melt_shift. f_equal.
  rewrite map_map. apply map_ext. intros x. lia.
Qed.

Lemma run_SEIR_follows_the_calendar_witness :
  exists rows : list record,
    run_SEIR euler 1000000 28000 737485 737509 = Returned rows
    /\ run_SEIR euler 1000000 28000 (737485 + 30) (737509 + 30)
       = Returned
           (map (fun r => {| date := (date r + 30)%Z; type := type r;
                             count := count r |})
                rows).
Proof.
  apply (run_SEIR_follows_the_calendar euler 1000000 28000 737485 737509 30).
  - exact euler_shape.
  - lia.
  - exact sample_horizon_fits.
  - unfold horizon_fits, date_min, date_max, daysTotal. lia.
  - apply euler_recovered_in_range. lia.
Defined.

(** With an integrator whose first row is the initial condition, a
    population other than zero that a float holds exactly, less one, the
    dates within the calendar and the Recovered series within the integers
    that a float holds exactly, the table opens every compartment on the
    date of first infection with the initial condition of [solve]:
    [population - 1] susceptible, one exposed, nobody infectious, nobody
    recovered. *)
Theorem run_opens_with_initial_condition
        (odeint : integrator)
        (population intensive_units : Z)
        (date_of_first_infection date_of_lockdown : Z) :
  row_per_time odeint ->
  starts_at_y0 odeint ->
  population <> 0%Z ->
  within_exact (inject_Z (population - 1)) ->
  horizon_fits date_of_first_infection ->
  recovered_in_range odeint population date_of_first_infection date_of_lockdown ->
  exists rows : list record,
    run_SEIR odeint population intensive_units
             date_of_first_infection date_of_lockdown = Returned rows
    /\ rows !! 0%nat
       = Some {| date := date_of_first_infection; type := susceptible;
                 count := (population - 1)%Z |}
    /\ rows !! 365%nat
       = Some {| date := date_of_first_infection; type := exposed;
                 count := 1%Z |}
    /\ rows !! 730%nat
       = Some {| date := date_of_first_infection; type := infectious;
                 count := 0%Z |}
    /\ rows !! 1095%nat
       = Some {| date := date_of_first_infection; type := recovered;
                 count := 0%Z |}.
Proof.
  intros Hshape Hfirst Hpop _ Hfits Hrange. eexists.
  split; [apply (run_SEIR_table odeint Hshape); assumption |].
  pose proof (y_data_var_length odeint Hshape population
                date_of_first_infection date_of_lockdown) as Hy.
  pose proof (D_delayed_length odeint Hshape population intensive_units
                date_of_first_infection date_of_lockdown) as HD.
  unfold run_table. cbv zeta.
  set (D := run_D _ _ _ _ _) in *.
  assert (Hgrid : exists l, arange daysTotal = 0%Z :: l)
    by (eexists; reflexivity).
  destruct Hgrid as [l Hl].
  assert (Hrows : exists rest,
             run_y_data_var odeint population date_of_first_infection
                            date_of_lockdown
             = (inject_Z (population - E0), inject_Z E0, 0, 0) :: rest).
  { unfold run_y_data_var. rewrite Hl. cbn [map]. apply Hfirst. }
  destruct Hrows as [rest Hrest].
  clear Hrange.
  set (y := run_y_data_var _ _ _ _) in *.
  set (dates := map (fun x => (date_of_first_infection + x)%Z) (arange daysTotal)).
  assert (Hdates : length dates = 365%nat)
    by (unfold dates; rewrite length_map, arange_length; reflexivity).
  assert (Hcols :
    Forall (fun c : observable * list Z => length (snd c) = length dates)
           [(susceptible, map round (column_S y));
            (exposed, map round (column_E y));
            (infectious, map round (column_I y));
            (recovered, map round (column_R y));
            (deaths, map round D)]).
  { rewrite Hdates.
    repeat constructor; cbn [snd];
      unfold column_S, column_E, column_I, column_R;
      rewrite ?length_map; assumption. }
  assert (Hblock :
    forall (j : nat) (v : observable) (c : list Z) (n : Z),
      [(susceptible, map round (column_S y));
       (exposed, map round (column_E y));
       (infectious, map round (column_I y));
       (recovered, map round (column_R y));
       (deaths, map round D)] !! j = Some (v, c) ->
      c !! 0%nat = Some n ->
      melt dates [(susceptible, map round (column_S y));
                  (exposed, map round (column_E y));
                  (infectious, map round (column_I y));
                  (recovered, map round (column_R y));
                  (deaths, map round D)] !! (j * 365)%nat
      = Some {| date := date_of_first_infection; type := v; count := n |}).
  { intros j v c n Hj Hc.
    rewrite <- (Nat.add_0_r (j * 365)), <- Hdates.
    rewrite (melt_lookup dates _ j 0%nat v c Hcols Hj) by (rewrite Hdates; lia).
    unfold dates. rewrite Hl. destruct c as [| n0 c]; [discriminate |].
    cbn in Hc. injection Hc as ->. cbn [map zip_with].
    rewrite Z.add_0_r. reflexivity. }
  assert (Hround1 : round (inject_Z 1) = 1%Z) by apply round_inject_Z.
  repeat split.
  - apply (Hblock 0%nat susceptible _ _ eq_refl).
    rewrite Hrest. unfold column_S, E0. cbn [map lookup list_lookup].
    rewrite round_inject_Z. reflexivity.
  - apply (Hblock 1%nat exposed _ _ eq_refl).
    rewrite Hrest. unfold column_E, E0. cbn [map lookup list_lookup].
    rewrite Hround1. reflexivity.
  - apply (Hblock 2%nat infectious _ _ eq_refl).
    rewrite Hrest. reflexivity.
  - apply (Hblock 3%nat recovered _ _ eq_refl).
    rewrite Hrest. reflexivity.
Qed.

Lemma run_opens_with_initial_condition_witness :
  exists rows : list record,
    run_SEIR euler 1000000 28000 737485 737509 = Returned rows
    /\ rows !! 0%nat
       = Some {| date := 737485; type := susceptible;
                 count := (1000000 - 1)%Z |}
    /\ rows !! 365%nat
       = Some {| date := 737485; type := exposed; count := 1%Z |}
    /\ rows !! 730%nat
       = Some {| date := 737485; type := infectious; count := 0%Z |}
    /\ rows !! 1095%nat
       = Some {| date := 737485; type := recovered; count := 0%Z |}.
Proof.
  apply (run_opens_with_initial_condition euler 1000000 28000 737485 737509).
  - exact euler_shape.
  - exact euler_starts_at_y0.
  - lia.
  - unfold within_exact, exact_bound, Qle; simpl; lia.
  - exact sample_horizon_fits.
  - apply euler_recovered_in_range. lia.
Defined.

(** With an integrator that runs forward from day 0, a population other
    than zero, the dates within the calendar and the Recovered series
    within the integers that a float holds exactly, every lockdown date
    that is not after the date of first infection gives the same table:
    how long before the first infection the lockdown began is not read. *)
Theorem early_lockdowns_give_one_table
        (odeint : integrator)
        (population intensive_units : Z)
        (date_of_first_infection date_of_lockdown date_of_lockdown' : Z) :
  row_per_time odeint ->
  forward_only odeint ->
  population <> 0%Z ->
  horizon_fits date_of_first_infection ->
  recovered_in_range odeint population date_of_first_infection date_of_lockdown ->
  (date_of_lockdown <= date_of_first_infection)%Z ->
  (date_of_lockdown' <= date_of_first_infection)%Z ->
  exists rows : list record,
    run_SEIR odeint population intensive_units
             date_of_first_infection date_of_lockdown = Returned rows
    /\ run_SEIR odeint population intensive_units
                date_of_first_infection date_of_lockdown' = Returned rows.
Proof.
  intros Hshape Hforward Hpop Hfits Hrange Hd Hd'.
  assert (Hsame :
    run_y_data_var odeint population date_of_first_infection date_of_lockdown'
    = run_y_data_var odeint population date_of_first_infection date_of_lockdown).
  { unfold run_y_data_var. apply Hforward.
    - apply grid_non_negative.
    - intros Y x Hx. apply model_after_both_switches;
        (apply Qle_trans with (y := 0); [| exact Hx]);
        unfold days_before_lockdown, Qle; simpl; lia. }
  assert (Hrange' :
    recovered_in_range odeint population date_of_first_infection
                       date_of_lockdown').
  { unfold recovered_in_range. rewrite Hsame. exact Hrange. }
  eexists.
  split; [apply (run_SEIR_table odeint Hshape); assumption |].
  rewrite (run_SEIR_table odeint Hshape) by assumption. f_equal.
  unfold run_table, run_D. cbv zeta. rewrite Hsame. reflexivity.
Qed.

Lemma early_lockdowns_give_one_table_witness :
  exists rows : list record,
    run_SEIR euler 1000000 28000 737485 737480 = Returned rows
    /\ run_SEIR euler 1000000 28000 737485 737400 = Returned rows.
Proof.
  apply (early_lockdowns_give_one_table euler 1000000 28000 737485 737480 737400).
  - exact euler_shape.
  - exact euler_forward_only.
  - lia.
  - exact sample_horizon_fits.
  - apply euler_recovered_in_range. lia.
  - lia.
  - lia.
Defined.

(** The calendar ends on 9999-12-31 (ordinal 3652059): with a population
    other than zero and the Recovered series within the integers that a
    float holds exactly, a run whose 365th date would lie past that day
    returns no table; the [date] column of line 141 raises
    [OverflowError]. *)
Theorem run_SEIR_leaves_the_calendar
        (odeint : integrator)
        (population intensive_units : Z)
        (date_of_first_infection date_of_lockdown : Z) :
  row_per_time odeint ->
  population <> 0%Z ->
  recovered_in_range odeint population date_of_first_infection date_of_lockdown ->
  (3652059 < date_of_first_infection + 364)%Z ->
  run_SEIR odeint population intensive_units
           date_of_first_infection date_of_lockdown
  = Raised OverflowError.
Proof.
  intros Hshape Hpop Hrange Hpast.
  apply run_SEIR_past_calendar; assumption.
Qed.

Lemma run_SEIR_leaves_the_calendar_witness :
  run_SEIR euler 1000000 28000 3651959 3651983 = Raised OverflowError.
Proof.
  apply (run_SEIR_leaves_the_calendar euler 1000000 28000 3651959 3651983).
  - exact euler_shape.
  - lia.
  - apply euler_recovered_in_range. lia.
  - lia.
Defined.

(** ** The growth rate *)

Section GrowthRate.

Local Open Scope R_scope.

Lemma sigma_R : Q2R sigma = 10 / 27.
Proof.
  assert (H : (sigma == 10 # 27)%Q) by reflexivity.
  rewrite (Qeq_eqR _ _ H). unfold Q2R; simpl. reflexivity.
Qed.

Lemma gamma_R : Q2R gamma = 5 / 19.
Proof.
  assert (H : (gamma == 5 # 19)%Q) by reflexivity.
  rewrite (Qeq_eqR _ _ H). unfold Q2R; simpl. reflexivity.
Qed.

Lemma r0_R : Q2R r0 = 3.
Proof.
  assert (H : (r0 == 3 # 1)%Q) by reflexivity.
  rewrite (Qeq_eqR _ _ H). unfold Q2R; simpl. lra.
Qed.

(** The square root of [s1] against [sigma + gamma]: above it when the
    reproduction number is [3], below it when it is [0.5]. *)
Lemma root_above :
  10 / 27 + 5 / 19
  < sqrt ((10 / 27 + 5 / 19) ^ 2 + 4 * (10 / 27) * (5 / 19) * (3 - 1)).
Proof.
  rewrite <- (sqrt_pow2 (10 / 27 + 5 / 19)) at 1 by lra.
  apply sqrt_lt_1_alt. split; [nra | lra].
Qed.

Lemma root_below :
  sqrt ((10 / 27 + 5 / 19) ^ 2 + 4 * (10 / 27) * (5 / 19) * (0.5 - 1))
  < 10 / 27 + 5 / 19.
Proof.
  rewrite <- (sqrt_pow2 (10 / 27 + 5 / 19)) at 2 by lra.
  apply sqrt_lt_1_alt. split; lra.
Qed.

(** C8. With the [sigma] and [gamma] of the module, the growth rate
    [s1 = 0.5 * (-(sigma+gamma) + sqrt((sigma+gamma)^2 + 4*sigma*gamma*(r0-1)))]
    is strictly positive for [r0 = 3.0], the value [run_SEIR] uses, and
    strictly negative for [r0 = 0.5]. *)
Theorem growth_rate_sign :
  0 < s1_at 3 /\ s1_at 0.5 < 0 /\ s1 = s1_at 3.
Proof.
  split; [| split].
  - unfold s1_at. rewrite sigma_R, gamma_R. pose proof root_above. lra.
  - unfold s1_at. rewrite sigma_R, gamma_R. pose proof root_below. lra.
  - unfold s1. rewrite r0_R. reflexivity.
Qed.

End GrowthRate.

(** ** More on the derivative *)

(** On a state with no negative compartment, with a positive population
    and non-negative coefficients: the susceptible never gain, the
    recovered never lose, and a compartment that is empty does not lose,
    so the derivative never points out of the non-negative states. *)
Theorem model_keeps_counts_non_negative
        (s e i r : Q) (x : Q) (N : Z) (beta0 : Q) (days0 : Z)
        (beta1 gamma sigma : Q) :
  (0 < N)%Z ->
  0 <= beta0 -> 0 <= beta1 -> 0 <= gamma -> 0 <= sigma ->
  0 <= s -> 0 <= e -> 0 <= i -> 0 <= r ->
  let '(dS, dE, dI, dR) := model (s, e, i, r) x N beta0 days0 beta1 gamma sigma in
  dS <= 0 /\ 0 <= dR
  /\ (s == 0 -> 0 <= dS) /\ (e == 0 -> 0 <= dE) /\ (i == 0 -> 0 <= dI).
Proof.
  intros HN Hb0 Hb1 Hg Hsig Hs He Hi Hr. unfold model.
  set (beta := if Qlt_le_dec x (inject_Z days0) then beta0 else beta1).
  assert (Hbeta : 0 <= beta) by (unfold beta; destruct (Qlt_le_dec _ _); assumption).
  assert (Hinv : 0 <= / inject_Z N).
  { apply Qinv_le_0_compat. change 0 with (inject_Z 0). rewrite <- Zle_Qle. lia. }
  unfold Qdiv. set (n := / inject_Z N) in *.
  assert (Hbs : 0 <= beta * s) by (apply Qmult_le_0_compat; assumption).
  assert (Hbsi : 0 <= beta * s * i) by (apply Qmult_le_0_compat; assumption).
  assert (Hflow : 0 <= beta * s * i * n) by (apply Qmult_le_0_compat; assumption).
  assert (Hse : 0 <= sigma * e) by (apply Qmult_le_0_compat; assumption).
  assert (Hgi : 0 <= gamma * i) by (apply Qmult_le_0_compat; assumption).
  repeat split.
  - assert (E : - beta * s * i * n == - (beta * s * i * n)) by ring.
    rewrite E. rewrite <- (Qplus_opp_r (beta * s * i * n)).
    rewrite <- (Qplus_0_l (- (beta * s * i * n))) at 1.
    apply Qplus_le_l, Hflow.
  - exact Hgi.
  - intros E0.
    assert (E : - beta * s * i * n == 0) by (rewrite E0; ring).
    rewrite E. apply Qle_refl.
  - intros E0.
    assert (E : beta * s * i * n - sigma * e == beta * s * i * n)
      by (rewrite E0; ring).
    rewrite E. exact Hflow.
  - intros E0.
    assert (E : sigma * e - gamma * i == sigma * e) by (rewrite E0; ring).
    rewrite E. exact Hse.
Qed.

Lemma model_keeps_counts_non_negative_witness :
  let '(dS, dE, dI, dR) :=
    model (999, 0, 1, 0) 3 1000 (15 # 19) 24 (11 # 38) (5 # 19) (10 # 27) in
  dS <= 0 /\ 0 <= dR
  /\ (999 == 0 -> 0 <= dS) /\ (0 == 0 -> 0 <= dE) /\ (1 == 0 -> 0 <= dI).
Proof.
  apply (model_keeps_counts_non_negative
           999 0 1 0 3 1000 (15 # 19) 24 (11 # 38) (5 # 19) (10 # 27));
    first [lia | unfold Qle; simpl; lia].
Defined.

(** The derivative works in proportions: multiplying the population and
    every compartment by one integer multiplies the derivative by it. *)
Theorem model_scales_with_population
        (Y : state) (x : Q) (N k : Z) (beta0 : Q) (days0 : Z)
        (beta1 gamma sigma : Q) :
  N <> 0%Z -> k <> 0%Z ->
  state_eq (model (scale k Y) x (k * N) beta0 days0 beta1 gamma sigma)
           (scale k (model Y x N beta0 days0 beta1 gamma sigma)).
Proof.
  intros HN Hk. destruct Y as [[[s e] i] r].
  unfold model, scale, state_eq.
  assert (HNq : ~ inject_Z N == 0).
  { intros E. apply HN. unfold Qeq in E; simpl in E. lia. }
  assert (Hkq : ~ inject_Z k == 0).
  { intros E. apply Hk. unfold Qeq in E; simpl in E. lia. }
  rewrite inject_Z_mult.
  destruct (Qlt_le_dec x (inject_Z days0)); repeat split; field; split; assumption.
Qed.

Lemma model_scales_with_population_witness :
  state_eq (model (scale 2 (999, 0, 1, 0)) 3 (2 * 1000) (15 # 19) 24 (11 # 38)
                  (5 # 19) (10 # 27))
           (scale 2 (model (999, 0, 1, 0) 3 1000 (15 # 19) 24 (11 # 38)
                           (5 # 19) (10 # 27))).
Proof.
  apply (model_scales_with_population (999, 0, 1, 0) 3 1000 2 (15 # 19) 24
                                      (11 # 38) (5 # 19) (10 # 27)); lia.
Defined.

(** ** More on the growth rate *)

Section GrowthThreshold.

Local Open Scope R_scope.

(** With the [sigma] and [gamma] of the module, the formula of [s1] gives
    a positive rate exactly when the reproduction number is above one, and
    a negative one exactly when it is below. *)
Theorem growth_rate_threshold (r : R) :
  0 <= r ->
  (0 < s1_at r <-> 1 < r) /\ (s1_at r < 0 <-> r < 1).
Proof.
  intros Hr. unfold s1_at. rewrite sigma_R, gamma_R.
  set (a := 10 / 27 + 5 / 19).
  set (p := 4 * (10 / 27) * (5 / 19) * (r - 1)).
  assert (Ha : 0 < a) by (unfold a; lra).
  assert (Hrad : 0 <= a ^ 2 + p) by (unfold a, p; nra).
  assert (Hsq : sqrt (a ^ 2) = a) by (apply sqrt_pow2; lra).
  assert (Hp : (0 < p <-> 1 < r) /\ (p < 0 <-> r < 1)) by (unfold p; lra).
  assert (Hup : a < sqrt (a ^ 2 + p) <-> 0 < p).
  { split; intros H.
    - rewrite <- Hsq in H at 1. apply sqrt_lt_0_alt in H. lra.
    - rewrite <- Hsq at 1. apply sqrt_lt_1_alt. split; [nra | lra]. }
  assert (Hdown : sqrt (a ^ 2 + p) < a <-> p < 0).
  { split; intros H.
    - rewrite <- Hsq in H at 2. apply sqrt_lt_0_alt in H. lra.
    - rewrite <- Hsq at 2. apply sqrt_lt_1_alt. split; lra. }
  split; split; intros H.
  - apply Hp, Hup. lra.
  - apply Hp, Hup in H. lra.
  - apply Hp, Hdown. lra.
  - apply Hp, Hdown in H. lra.
Qed.

Lemma growth_rate_threshold_witness :
  (0 < s1_at 2 <-> 1 < 2) /\ (s1_at 2 < 0 <-> 2 < 1).
Proof.
  apply (growth_rate_threshold 2). lra.
Defined.

End GrowthThreshold.

(** ** [solve] on its own *)

(** For a horizon of at least one day, with an integrator that returns
    one row per time and the initial condition first: [solve] returns the
    days [0 .. daysTotal-1] and four series of that length, which open
    with [population - E0] susceptible, [E0] exposed, nobody infectious and
    nobody recovered. *)
Theorem solve_shape_and_start
        (odeint : integrator) (population E0 : Z) (beta0 : Q) (days0 : Z)
        (beta1 gamma sigma : Q) (daysTotal : Z) :
  row_per_time odeint ->
  starts_at_y0 odeint ->
  (0 < daysTotal)%Z ->
  let '(X, S_, E_, I_, R_) :=
    solve odeint model population E0 beta0 days0 beta1 gamma sigma daysTotal in
  X = arange daysTotal
  /\ length X = Z.to_nat daysTotal
  /\ length S_ = length X /\ length E_ = length X
  /\ length I_ = length X /\ length R_ = length X
  /\ S_ !! 0%nat = Some (inject_Z (population - E0))
  /\ E_ !! 0%nat = Some (inject_Z E0)
  /\ I_ !! 0%nat = Some 0
  /\ R_ !! 0%nat = Some 0.
Proof.
  intros Hshape Hfirst Hdays. unfold solve.
  assert (Hgrid : exists l, arange daysTotal = 0%Z :: l).
  { unfold arange. destruct (Z.to_nat daysTotal) as [| n] eqn:Hn; [lia |].
    eexists. reflexivity. }
  destruct Hgrid as [l Hl].
  set (y := odeint _ _ _).
  assert (Hlen : length y = length (arange daysTotal))
    by (unfold y; rewrite Hshape; apply length_map).
  assert (Hrows : exists rest,
             y = (inject_Z (population - E0), inject_Z E0, 0, 0) :: rest).
  { unfold y. rewrite Hl. cbn [map]. apply Hfirst. }
  destruct Hrows as [rest Hrest].
  unfold column_S, column_E, column_I, column_R. rewrite !length_map.
  repeat split; try exact Hlen; try apply arange_length;
    rewrite Hrest; reflexivity.
Qed.

Lemma solve_shape_and_start_witness :
  let '(X, S_, E_, I_, R_) :=
    solve euler model 1000 1 (15 # 19) 24 (11 # 38) (5 # 19) (10 # 27) 3 in
  X = arange 3
  /\ length X = Z.to_nat 3
  /\ length S_ = length X /\ length E_ = length X
  /\ length I_ = length X /\ length R_ = length X
  /\ S_ !! 0%nat = Some (inject_Z (1000 - 1))
  /\ E_ !! 0%nat = Some (inject_Z 1)
  /\ I_ !! 0%nat = Some 0
  /\ R_ !! 0%nat = Some 0.
Proof.
  apply (solve_shape_and_start euler 1000 1 (15 # 19) 24 (11 # 38) (5 # 19)
                               (10 # 27) 3).
  - exact euler_shape.
  - exact euler_starts_at_y0.
  - lia.
Defined.

